(** * Ledger of src/App.jsx: balance derivation, snapshot handling, form
      validation and the formatting helpers.

    The development is a shallow embedding of the functions of [App.jsx]
    that carry logic:

    - [formatRupee] and [getFormattedMobileForWhatsApp] (pure helpers);
    - the [onSnapshot] callback of [CustomerDetail] (sort, balance
      recomputation, best-effort write-back);
    - [handleSubmit] of [AddCustomer] and of [TransactionForm];
    - the amount field of [TransactionForm] ([handleAmountChange],
      [handleAmountBlur]);
    - [handleDeleteTransaction] of [CustomerDetail] and its confirmation;
    - the query, the search filter and the balance cell of [Dashboard].

    Conventions of the embedding.

    - A JavaScript string is its sequence of UTF-16 code units, [list N].
      [str] injects an ASCII literal.
    - A JavaScript number is an IEEE double.  [number] is the number a
      double stands for: NaN, an infinity, or an exact rational ([Q]), and
      [JS.add], [JS.sub] are the exact sum and difference; numbers are
      compared by [num_eq], written [x =n= y].  Statements on [number] are
      made only where rounding plays no part.  [IEEE.double] is binary64
      itself, with the rounding operations of the standard library's
      [SpecFloat]; the running sum of the listener is given on it as well,
      and [IEEE.noRounding] says when the two agree.
    - Firestore is an external collaborator.  A collection is the list of
      its documents in the order the store returns them; whether a write
      is accepted is an input ([outcome]) of the function that issues it.
    - React state is a record, a state setter is a record update, and the
      context's [showMessageBox] and [console.error] write into a [World]
      record that is threaded through the handlers. *)

From Stdlib Require Import String Ascii.
From Stdlib Require Import ZArith NArith QArith Qabs Qround.
From Stdlib Require Import List Bool Lia Lqa ZifyNat.
From Stdlib Require Import Permutation Sorted Setoid Morphisms.
From Stdlib Require Decimal DecimalN.
From Stdlib Require Floats.SpecFloat.
Import ListNotations.

Local Open Scope Z_scope.

(* ================================================================== *)
(** ** JavaScript strings and numbers *)
(* ================================================================== *)

Module JS.

(** A string is a sequence of UTF-16 code units. *)
Definition jsstring : Type := list N.

(** An ASCII literal of the source, one code unit per character. *)
Definition str (s : string) : jsstring :=
  List.map N_of_ascii (list_ascii_of_string s).

Definition streq (s t : jsstring) : bool :=
  if list_eq_dec N.eq_dec s t then true else false.

(** [s.startsWith(p)] *)
Fixpoint startsWith (s p : jsstring) : bool :=
  match p, s with
  | [], _ => true
  | _ :: _, [] => false
  | c :: p', d :: s' => N.eqb c d && startsWith s' p'
  end.

(** Numbers: exact finite values, the two infinities and NaN. *)
Inductive number : Type :=
| NaN
| Inf (negative : bool)
| Fin (q : Q).

Definition isNaN (x : number) : bool :=
  match x with NaN => true | _ => false end.

(** The exact sum of the numbers [x] and [y] stand for. *)
Definition add (x y : number) : number :=
  match x, y with
  | NaN, _ | _, NaN => NaN
  | Inf a, Inf b => if Bool.eqb a b then Inf a else NaN
  | Inf a, Fin _ => Inf a
  | Fin _, Inf b => Inf b
  | Fin p, Fin q => Fin (p + q)
  end.

(** [- x] *)
Definition opp (x : number) : number :=
  match x with
  | NaN => NaN
  | Inf a => Inf (negb a)
  | Fin q => Fin (- q)
  end.

(** Their exact difference. *)
Definition sub (x y : number) : number :=
  match x, y with
  | NaN, _ | _, NaN => NaN
  | Inf a, Inf b => if Bool.eqb a b then NaN else Inf a
  | Inf a, Fin _ => Inf a
  | Fin _, Inf b => Inf (negb b)
  | Fin p, Fin q => Fin (p - q)
  end.

(** [x <= 0]; every comparison with NaN is false. *)
Definition le0 (x : number) : bool :=
  match x with
  | NaN => false
  | Inf a => a
  | Fin q => Qle_bool q 0
  end.

(** [x > 0]; every comparison with NaN is false. *)
Definition gt0 (x : number) : bool :=
  match x with
  | NaN => false
  | Inf a => negb a
  | Fin q => match (0 ?= q)%Q with Lt => true | _ => false end
  end.

(** The same number: [Qeq] on finite values. *)
Definition num_eq (x y : number) : Prop :=
  match x, y with
  | NaN, NaN => True
  | Inf a, Inf b => a = b
  | Fin p, Fin q => (p == q)%Q
  | _, _ => False
  end.

(** Values that reach the helpers: a string, a number, or [undefined]. *)
Inductive value : Type :=
| VUndefined
| VStr (s : jsstring)
| VNum (n : number).

End JS.

Import JS.

Declare Scope js_scope.
Delimit Scope js_scope with js.
Infix "=n=" := num_eq (at level 70, no associativity) : js_scope.
Local Open Scope js_scope.

(* ================================================================== *)
(** ** The records of the store *)
(* ================================================================== *)

(** A document of [customers_suppliers], as [AddCustomer] writes it
    (lines 724-731), with the [id] the snapshot adds. *)
Record Contact : Type := mkContact {
  cs_id : jsstring;
  cs_name : jsstring;
  cs_mobile : jsstring;
  cs_address : jsstring;
  cs_type : jsstring;
  cs_balance : number;
  cs_createdAt : Z
}.

(** A document of [transactions], as [TransactionForm] writes it
    (lines 893-911), with the [id] the snapshot adds.  Timestamps are
    milliseconds since the epoch; a field a document lacks is [None]. *)
Record Transaction : Type := mkTransaction {
  id : jsstring;
  customerSupplierId : jsstring;
  amount : number;
  type : jsstring;
  description : jsstring;
  date : option Z;
  updatedAt : option Z;
  createdAt : option Z
}.


(* ================================================================== *)
(** ** CustomerDetail: sort and balance recomputation (lines 443-464) *)
(* ================================================================== *)

Module Ledger.

(** [a.date ? a.date.toMillis() : 0] *)
Definition dateMillis (t : Transaction) : Z :=
  match date t with
  | Some d => d
  | None => 0
  end.

(** The comparator handed to [sort] (lines 447-451). *)
Definition compareFn (a b : Transaction) : Z :=
  let dateA := dateMillis a in
  let dateB := dateMillis b in
  dateB - dateA.

(** [Array.prototype.sort] is stable: among elements the comparator does
    not order, the earlier one stays first.  [insert x l] puts [x], which
    preceded every element of [l] in the array, in front of the first
    element it does not have to follow. *)
Section Sort.
Context {A : Type} (cmp : A -> A -> Z).

Fixpoint insert (x : A) (l : list A) : list A :=
  match l with
  | [] => [x]
  | y :: l' => if cmp x y <=? 0 then x :: y :: l' else y :: insert x l'
  end.

Fixpoint sort (l : list A) : list A :=
  match l with
  | [] => []
  | x :: l' => insert x (sort l')
  end.
End Sort.

(** Descending in the key: [a] may stand before [b]. *)
Definition desc {A : Type} (key : A -> Z) (a b : A) : Prop := key b <= key a.

(** One iteration of the [forEach] of lines 456-462. *)
Definition accumulate (currentBalance : number) (t : Transaction) : number :=
  if streq (type t) (str "credit") then add currentBalance (amount t)
  else if streq (type t) (str "debit") then sub currentBalance (amount t)
  else currentBalance.

(** Lines 455-463: [let currentBalance = 0; fetchedTransactions.forEach(...)]. *)
Definition recomputeBalance (fetchedTransactions : list Transaction) : number :=
  fold_left accumulate fetchedTransactions (Fin 0).

(** What one snapshot publishes: [setTransactions] and [setBalance]. *)
Definition sortedTransactions (docs : list Transaction) : list Transaction :=
  sort compareFn docs.

Definition snapshotBalance (docs : list Transaction) : number :=
  recomputeBalance (sortedTransactions docs).

(** The spec's reading of the balance: the sum over the credits minus the
    sum over the debits. *)
Definition isCredit (t : Transaction) : bool := streq (type t) (str "credit").
Definition isDebit (t : Transaction) : bool := streq (type t) (str "debit").



(** What one transaction adds to the balance, and the sum of these. *)
Definition contribution (t : Transaction) : number :=
  if isCredit t then amount t
  else if isDebit t then opp (amount t)
  else Fin 0.

Definition total (l : list Transaction) : number :=
  fold_right (fun t acc => add (contribution t) acc) (Fin 0) l.

(** The transactions that carry one of the two direction flags. *)
Definition hasDirection (t : Transaction) : bool := isCredit t || isDebit t.

End Ledger.

(* ================================================================== *)
(** ** The same lines on IEEE doubles *)
(* ================================================================== *)

(** The amounts of the documents are binary64 numbers, and [+=] and [-=]
    round to the nearest double.  [spec_float] with the operations of the
    standard library's [SpecFloat] is the arithmetic of IEEE 754. *)
Module IEEE.

Import Ledger.

Definition prec : Z := 53.
Definition emax : Z := 1024.

Definition double : Type := SpecFloat.spec_float.

Definition zero : double := SpecFloat.S754_zero false.

(** [x + y] and [x - y], rounded to nearest, ties to even. *)
Definition add (x y : double) : double := SpecFloat.SFadd prec emax x y.
Definition sub (x y : double) : double := SpecFloat.SFsub prec emax x y.

(** The double nearest to an integer, and to [m * 2^e]. *)
Definition ofZ (z : Z) : double := SpecFloat.binary_normalize prec emax z 0 false.
Definition ofBinary (m e : Z) : double :=
  SpecFloat.binary_normalize prec emax m e false.


(** The number a double stands for. *)
Definition exactValue (x : double) : number :=
  match x with
  | SpecFloat.S754_zero _ => Fin 0
  | SpecFloat.S754_infinity s => Inf s
  | SpecFloat.S754_nan => NaN
  | SpecFloat.S754_finite s m e =>
      Fin (if 0 <=? e
           then inject_Z (SpecFloat.cond_Zopp s (Zpos m) * 2 ^ e)
           else SpecFloat.cond_Zopp s (Zpos m) # Z.to_pos (2 ^ (- e)))
  end.

(** A document of [transactions] with the double its [amount] holds. *)
Record Document : Type := mkDocument {
  d_id : jsstring;
  d_customerSupplierId : jsstring;
  d_amount : double;
  d_type : jsstring;
  d_description : jsstring;
  d_date : option Z;
  d_updatedAt : option Z;
  d_createdAt : option Z
}.

(** The document with the exact value of its amount. *)
Definition exact (d : Document) : Transaction :=
  mkTransaction (d_id d) (d_customerSupplierId d) (exactValue (d_amount d))
                (d_type d) (d_description d) (d_date d) (d_updatedAt d)
                (d_createdAt d).


(** Lines 447-451. *)
Definition dateMillis64 (t : Document) : Z :=
  match d_date t with
  | Some d => d
  | None => 0
  end.

Definition compareFn64 (a b : Document) : Z :=
  let dateA := dateMillis64 a in
  let dateB := dateMillis64 b in
  dateB - dateA.

(** Lines 456-462. *)
Definition accumulate64 (currentBalance : double) (t : Document) : double :=
  if streq (d_type t) (str "credit") then add currentBalance (d_amount t)
  else if streq (d_type t) (str "debit") then sub currentBalance (d_amount t)
  else currentBalance.

(** Lines 455-463. *)
Definition recomputeBalance64 (fetchedTransactions : list Document) : double :=
  fold_left accumulate64 fetchedTransactions zero.

(** The balance one snapshot publishes. *)
Definition snapshotBalance64 (docs : list Document) : double :=
  recomputeBalance64 (sort compareFn64 docs).


End IEEE.

(* ================================================================== *)
(** ** Formatting helpers (lines 38-67) *)
(* ================================================================== *)

Module Format.

Definition isDigit (c : N) : bool := ((48 <=? c) && (c <=? 57))%N.

(** WhiteSpace and LineTerminator code units, what [trim] and
    [parseFloat] skip. *)
Definition isWhiteSpace (c : N) : bool :=
  (((9 <=? c) && (c <=? 13)) || (c =? 32) || (c =? 160) || (c =? 5760)
   || ((8192 <=? c) && (c <=? 8202)) || (c =? 8232) || (c =? 8233)
   || (c =? 8239) || (c =? 8287) || (c =? 12288) || (c =? 65279))%N.

Fixpoint trimStart (s : jsstring) : jsstring :=
  match s with
  | [] => []
  | c :: r => if isWhiteSpace c then trimStart r else s
  end.

Definition trimEnd (s : jsstring) : jsstring := rev (trimStart (rev s)).

(** [s.trim()] *)
Definition trim (s : jsstring) : jsstring := trimEnd (trimStart s).

(** *** parseFloat *)

(** The longest prefix of decimal digits, and what follows it. *)
Fixpoint takeDigits (s : jsstring) : jsstring * jsstring :=
  match s with
  | [] => ([], [])
  | c :: r =>
      if isDigit c
      then let (ds, rest) := takeDigits r in (c :: ds, rest)
      else ([], s)
  end.

Definition digitStep (acc : Z) (c : N) : Z := 10 * acc + Z.of_N (c - 48).

Definition digitsValue (ds : jsstring) : Z := fold_left digitStep ds 0.

(** The value of the ExponentPart [s] starts with ([e] or [E], an optional
    sign, at least one digit); 0 when it starts with none. *)
Definition exponentPart (s : jsstring) : Z :=
  match s with
  | [] => 0
  | c :: r =>
      if ((c =? 101) || (c =? 69))%N then
        let signed :=
          match r with
          | d :: r' =>
              if (d =? 43)%N then (1, r')
              else if (d =? 45)%N then (-1, r')
              else (1, r)
          | [] => (1, r)
          end in
        match takeDigits (snd signed) with
        | ([], _) => 0
        | (ds, _) => fst signed * digitsValue ds
        end
      else 0
  end.

Definition pow10 (e : Z) : Q :=
  if 0 <=? e then inject_Z (10 ^ e) else 1 # Z.to_pos (10 ^ (- e)).

(** The value of [ip.fp] times ten to the [e]. *)
Definition decimalValue (ip fp : jsstring) (e : Z) : Q :=
  (inject_Z (digitsValue (ip ++ fp)) * pow10 (e - Z.of_nat (length fp)))%Q.

(** The longest prefix that is a StrUnsignedDecimalLiteral. *)
Definition parseUnsigned (s : jsstring) : number :=
  if startsWith s (str "Infinity") then Inf false
  else
    let (ip, r1) := takeDigits s in
    match r1 with
    | c :: r2 =>
        if (c =? 46)%N then
          let (fp, r3) := takeDigits r2 in
          match ip, fp with
          | [], [] => NaN
          | _, _ => Fin (decimalValue ip fp (exponentPart r3))
          end
        else
          match ip with
          | [] => NaN
          | _ => Fin (decimalValue ip [] (exponentPart r1))
          end
    | [] =>
        match ip with
        | [] => NaN
        | _ => Fin (decimalValue ip [] 0)
        end
    end.

(** [parseFloat(v)]: the argument is converted to a string, leading white
    space is skipped and the longest prefix that is a decimal literal is
    read.  A number converts to a string that reads back as itself.  For
    a string, the result is the number the literal denotes; the code
    holds the double nearest to it (an infinity or a zero beyond the
    range of the doubles). *)
Definition parseFloat (v : value) : number :=
  match v with
  | VUndefined => NaN
  | VNum n => n
  | VStr s =>
      match trimStart s with
      | c :: r =>
          if (c =? 43)%N then parseUnsigned r
          else if (c =? 45)%N then opp (parseUnsigned r)
          else parseUnsigned (c :: r)
      | [] => NaN
      end
  end.

(** *** Intl.NumberFormat('en-IN', currency INR, two fraction digits) *)

Fixpoint uintCodeUnits (u : Decimal.uint) : jsstring :=
  match u with
  | Decimal.Nil => []
  | Decimal.D0 u' => 48%N :: uintCodeUnits u'
  | Decimal.D1 u' => 49%N :: uintCodeUnits u'
  | Decimal.D2 u' => 50%N :: uintCodeUnits u'
  | Decimal.D3 u' => 51%N :: uintCodeUnits u'
  | Decimal.D4 u' => 52%N :: uintCodeUnits u'
  | Decimal.D5 u' => 53%N :: uintCodeUnits u'
  | Decimal.D6 u' => 54%N :: uintCodeUnits u'
  | Decimal.D7 u' => 55%N :: uintCodeUnits u'
  | Decimal.D8 u' => 56%N :: uintCodeUnits u'
  | Decimal.D9 u' => 57%N :: uintCodeUnits u'
  end.

(** The decimal digits of a natural number, most significant first. *)
Definition decimalDigits (n : Z) : jsstring := uintCodeUnits (N.to_uint (Z.to_N n)).

Definition comma : N := 44%N.

(** Secondary groups of two digits, on the digits least significant first. *)
Fixpoint groupPairs (l : jsstring) : jsstring :=
  match l with
  | a :: b :: ((_ :: _) as r) => a :: b :: comma :: groupPairs r
  | _ => l
  end.

(** en-IN grouping: a primary group of three digits, then groups of two. *)
Definition groupReversed (l : jsstring) : jsstring :=
  match l with
  | a :: b :: c :: ((_ :: _) as r) => a :: b :: c :: comma :: groupPairs r
  | _ => l
  end.

Definition groupIndian (digits : jsstring) : jsstring :=
  rev (groupReversed (rev digits)).

Definition notComma (c : N) : bool := negb (c =? comma)%N.

(** The number of hundredths nearest to [|q|], ties away from zero. *)
Definition hundredths (q : Q) : Z := Qfloor (Qabs q * 100 + (1 # 2)).

Definition rupeeSign : N := 8377%N.
Definition infinitySign : N := 8734%N.

Definition signPrefix (negative : bool) : jsstring :=
  if negative then str "-" else [].

(** The shape of the result is that of the platform: sign, rupee sign,
    grouped integer part, point, two digits.  The digits are those of the
    number rounded to hundredths; the platform prints the digits of the
    shortest decimal that reads back as the double, which can differ. *)
Definition formatINR (n : number) : jsstring :=
  match n with
  | NaN => rupeeSign :: str "NaN"
  | Inf negative => signPrefix negative ++ [rupeeSign; infinitySign]
  | Fin q =>
      let h := hundredths q in
      signPrefix (negb (Qle_bool 0 q))
        ++ rupeeSign :: groupIndian (decimalDigits (h / 100))
        ++ str "." ++ [(48 + Z.to_N (h mod 100 / 10))%N; (48 + Z.to_N (h mod 10))%N]
  end.

(** Lines 39-51. *)
Definition formatRupee (amount : value) : value :=
  let num := parseFloat amount in
  if isNaN num then amount
  else VStr (formatINR num).

(** Lines 54-67.  [mobile] is a string: [!mobile] holds of the empty one. *)
Definition getFormattedMobileForWhatsApp (mobile : jsstring) : jsstring :=
  match mobile with
  | [] => []
  | _ =>
      let cleanedMobile := filter isDigit mobile in
      if startsWith cleanedMobile (str "91") && (10 <=? length cleanedMobile)%nat
      then str "+" ++ cleanedMobile
      else str "+91" ++ cleanedMobile
  end.

(** The rule of the phone normalization in the spec's words: strip the
    non-digits; prefix [+] when the digits begin with [91] and are at least
    ten, [+91] otherwise. *)
Definition specNormalizedPhone (input : jsstring) : jsstring :=
  let digits := filter isDigit input in
  if startsWith digits (str "91") && (10 <=? length digits)%nat
  then str "+" ++ digits
  else str "+91" ++ digits.

End Format.

Import Format.

(* ================================================================== *)
(** ** The store and the effects of a handler *)
(* ================================================================== *)

Module Firestore.

(** The two collections under [artifacts/<appId>/users/<userId>/]. *)
Record Store : Type := mkStore {
  customers_suppliers : list Contact;
  transactions : list Transaction
}.

(** How the store settles a write: the promise resolves, or it rejects
    with an error whose [message] is given. *)
Inductive outcome : Type :=
| Resolved
| Rejected (message : jsstring).

(** The calls a handler issues, in order. *)
Inductive call : Type :=
| AddDoc (collection : jsstring)
| UpdateDoc (collection docId : jsstring)
| DeleteDoc (collection docId : jsstring).

Definition hasContact (s : Store) (cid : jsstring) : bool :=
  existsb (fun c => streq (cs_id c) cid) (customers_suppliers s).

Definition hasTransaction (s : Store) (tid : jsstring) : bool :=
  existsb (fun t => streq (id t) tid) (transactions s).

(** [where("customerSupplierId", "==", cid)] on [transactions]. *)
Definition query (s : Store) (cid : jsstring) : list Transaction :=
  filter (fun t => streq (customerSupplierId t) cid) (transactions s).

(** [updateDoc(csRef, { balance })]: rejects when the network does, or when
    the document does not exist; otherwise replaces the one field. *)
Definition updateBalance (net : outcome) (cid : jsstring) (b : number)
    (s : Store) : outcome * Store :=
  match net with
  | Rejected e => (Rejected e, s)
  | Resolved =>
      if hasContact s cid then
        (Resolved,
         mkStore
           (map (fun c =>
                   if streq (cs_id c) cid
                   then mkContact (cs_id c) (cs_name c) (cs_mobile c)
                                  (cs_address c) (cs_type c) b (cs_createdAt c)
                   else c)
                (customers_suppliers s))
           (transactions s))
      else (Rejected (str "not-found"), s)
  end.

(** [updateDoc(txRef, transactionData)]: the fields of [data] replace those
    of the document; [id] and [createdAt] are not among them. *)
Definition updateTransaction (net : outcome) (tid : jsstring)
    (data : Transaction) (s : Store) : outcome * Store :=
  match net with
  | Rejected e => (Rejected e, s)
  | Resolved =>
      if hasTransaction s tid then
        (Resolved,
         mkStore
           (customers_suppliers s)
           (map (fun t =>
                   if streq (id t) tid
                   then mkTransaction (id t) (customerSupplierId data)
                          (amount data) (type data) (description data)
                          (date data) (updatedAt data) (createdAt t)
                   else t)
                (transactions s)))
      else (Rejected (str "not-found"), s)
  end.

(** [addDoc(collection, data)]: the store chooses the id of the document. *)
Definition addContact (net : outcome) (c : Contact) (s : Store)
    : outcome * Store :=
  match net with
  | Rejected e => (Rejected e, s)
  | Resolved =>
      (Resolved, mkStore (customers_suppliers s ++ [c]) (transactions s))
  end.

Definition addTransaction (net : outcome) (t : Transaction) (s : Store)
    : outcome * Store :=
  match net with
  | Rejected e => (Rejected e, s)
  | Resolved =>
      (Resolved, mkStore (customers_suppliers s) (transactions s ++ [t]))
  end.

End Firestore.

Import Firestore.

(** What a handler can touch outside its component: the store, the trace
    of calls made to it, the console, and the message box of [App]. *)
Record World : Type := mkWorld {
  store : Store;
  calls : list call;
  console : list (jsstring * jsstring);
  messageBox : option (jsstring * jsstring)
}.

(** What a handler is given: whether [db] and [userId] are set, how the
    store settles the write it issues, the id the store gives a new
    document, and the readings of the clock ([now k] is what the
    handler's [k]-th [new Date()] returns). *)
Record Env : Type := mkEnv {
  ready : bool;
  settle : outcome;
  freshId : jsstring;
  now : nat -> Z
}.

(** [showMessageBox(message, type)] (line 189). *)
Definition showMessageBox (message type : jsstring) (w : World) : World :=
  mkWorld (store w) (calls w) (console w) (Some (message, type)).

(** [console.error(label, error)] *)
Definition consoleError (label message : jsstring) (w : World) : World :=
  mkWorld (store w) (calls w) (console w ++ [(label, message)]) (messageBox w).

Definition issue (c : call) (s : Store) (w : World) : World :=
  mkWorld s (calls w ++ [c]) (console w) (messageBox w).

(* ================================================================== *)
(** ** CustomerDetail: the snapshot listener (lines 443-480) *)
(* ================================================================== *)

Module CustomerDetail.

Import Ledger.

(** The state of the component that the listener sets. *)
Record State : Type := mkState {
  transactions : list Transaction;
  balance : number;
  loadingTransactions : bool
}.

(** The success callback of [onSnapshot], run on the documents [docs] of a
    snapshot for the contact [customerSupplier_id]. *)
Definition onNext (env : Env) (customerSupplier_id : jsstring)
    (docs : list Transaction) (w : World) (st : State) : World * State :=
  let fetchedTransactions := sort compareFn docs in
  (* setTransactions(fetchedTransactions) *)
  let st := mkState fetchedTransactions (balance st) (loadingTransactions st) in
  let currentBalance := recomputeBalance fetchedTransactions in
  (* setBalance(currentBalance) *)
  let st := mkState (transactions st) currentBalance (loadingTransactions st) in
  (* try { await updateDoc(csRef, { balance: currentBalance }) } catch ... *)
  let (result, store') :=
    updateBalance (settle env) customerSupplier_id currentBalance (store w) in
  let w := issue (UpdateDoc (str "customers_suppliers") customerSupplier_id)
                 store' w in
  let w :=
    match result with
    | Resolved => w
    | Rejected e =>
        consoleError (str "Error updating customer/supplier balance:") e w
    end in
  (* setLoadingTransactions(false) *)
  (w, mkState (transactions st) (balance st) false).

(** The error callback of [onSnapshot] (lines 477-481). *)
Definition onError (message : jsstring) (w : World) (st : State)
    : World * State :=
  let w := consoleError (str "Error fetching transactions: ") message w in
  let w := showMessageBox (str "Failed to load transactions: " ++ message)
                          (str "error") w in
  (w, mkState (transactions st) (balance st) false).

(** The first snapshot after subscribing with the query on
    [customerSupplier_id]: the store answers with the matching documents. *)
Definition subscribe (env : Env) (customerSupplier_id : jsstring)
    (w : World) (st : State) : World * State :=
  match ready env, customerSupplier_id with
  | false, _ | _, [] => (w, st)
  | true, _ :: _ =>
      let st := mkState (transactions st) (balance st) true in
      onNext env customerSupplier_id (query (store w) customerSupplier_id) w st
  end.

End CustomerDetail.

(* ================================================================== *)
(** ** AddCustomer.handleSubmit (lines 710-741) *)
(* ================================================================== *)

Module AddCustomer.

(** Returns the world after the handler and whether [onSave()] was called. *)
Definition handleSubmit (env : Env) (name mobile address : jsstring)
    (w : World) : World * bool :=
  match trim name with
  | [] => (showMessageBox (str "Name cannot be empty.") (str "error") w, false)
  | _ :: _ =>
      if negb (ready env) then
        (showMessageBox (str "Firebase not initialized. Please try again.")
                        (str "error") w, false)
      else
        let (result, store') :=
          addContact (settle env)
            (mkContact (freshId env) (trim name) (trim mobile) (trim address)
                       (str "customer") (Fin 0) (now env 0%nat))
            (store w) in
        let w := issue (AddDoc (str "customers_suppliers")) store' w in
        match result with
        | Resolved =>
            (showMessageBox (name ++ str " added successfully as a customer!")
                            (str "success") w, true)
        | Rejected e =>
            let w := consoleError (str "Error adding customer:") e w in
            (showMessageBox (str "Failed to add contact: " ++ e)
                            (str "error") w, false)
        end
  end.

End AddCustomer.

(* ================================================================== *)
(** ** TransactionForm.handleSubmit (lines 875-920) *)
(* ================================================================== *)

(** [{ ...transactionData, createdAt }], stored under the id the store
    gives it (lines 908-911). *)
Definition withCreatedAt (docId : jsstring) (transactionData : Transaction)
    (created : Z) : Transaction :=
  mkTransaction docId (customerSupplierId transactionData)
    (amount transactionData) (type transactionData)
    (description transactionData) (date transactionData)
    (updatedAt transactionData) (Some created).

Module TransactionForm.

(** [rawAmount] is the empty string or a number; [date] is the instant
    [new Date(date)] denotes for the day chosen in the form.  Returns the
    world after the handler and whether [onSave()] was called. *)
Definition handleSubmit (env : Env)
    (customerSupplierId customerSupplierName : jsstring)
    (initialTransaction : option Transaction)
    (rawAmount : value) (type description : jsstring) (date : Z)
    (w : World) : World * bool :=
  let parsedAmount := parseFloat rawAmount in
  if isNaN parsedAmount || le0 parsedAmount then
    (showMessageBox (str "Please enter a valid positive amount.")
                    (str "error") w, false)
  else if negb (ready env) then
    (showMessageBox (str "Firebase not initialized. Please try again.")
                    (str "error") w, false)
  else
    let transactionDate := date in
    let transactionData :=
      mkTransaction [] customerSupplierId parsedAmount type (trim description)
                    (Some transactionDate) (Some (now env 0%nat)) None in
    match initialTransaction with
    | Some initial =>
        let (result, store') :=
          updateTransaction (settle env) (id initial) transactionData (store w) in
        let w := issue (UpdateDoc (str "transactions") (id initial)) store' w in
        match result with
        | Resolved =>
            (showMessageBox (str "Transaction updated successfully!")
                            (str "success") w, true)
        | Rejected e =>
            let w := consoleError (str "Error saving transaction:") e w in
            (showMessageBox (str "Failed to save transaction: " ++ e)
                            (str "error") w, false)
        end
    | None =>
        let (result, store') :=
          addTransaction (settle env)
            (withCreatedAt (freshId env) transactionData (now env 1%nat))
            (store w) in
        let w := issue (AddDoc (str "transactions")) store' w in
        match result with
        | Resolved =>
            (showMessageBox
               (str "Transaction recorded successfully for "
                  ++ customerSupplierName ++ str "!")
               (str "success") w, true)
        | Rejected e =>
            let w := consoleError (str "Error saving transaction:") e w in
            (showMessageBox (str "Failed to save transaction: " ++ e)
                            (str "error") w, false)
        end
    end.

End TransactionForm.

(* ================================================================== *)
(** ** TransactionForm: the amount field (lines 813-872) *)
(* ================================================================== *)

Module AmountField.

(** [rawAmount] holds the empty string or a number: the form sets it to
    [''], to a [parseFloat] result, or to the amount of the transaction
    being edited. *)
Inductive raw : Type :=
| RawEmpty
| RawNumber (n : number).

Definition rawValue (r : raw) : value :=
  match r with
  | RawEmpty => VStr []
  | RawNumber n => VNum n
  end.

Record State : Type := mkState {
  rawAmount : raw;
  displayAmount : value
}.

(** The initial values of the two state variables (lines 813-814). *)
Definition initialState (initialTransaction : option Transaction) : State :=
  match initialTransaction with
  | Some t => mkState (RawNumber (amount t)) (formatRupee (VNum (amount t)))
  | None => mkState RawEmpty (VStr [])
  end.

Definition dot : N := 46%N.

(** The characters [/[^0-9.]/] does not match. *)
Definition keeps (c : N) : bool := isDigit c || (c =? dot)%N.

(** [value.replace(/[^0-9.]/g, '')] *)
Definition cleanValue (value : jsstring) : jsstring := filter keeps value.

(** [cleanedValue.match(/^\d*\.?\d*$/)]: digits, at most one point, digits,
    and nothing else.  Taking the longest run of digits each time loses no
    match, since a digit can only be matched by one of the two [\d*]. *)
Definition matchesDecimalPattern (s : jsstring) : bool :=
  let afterInteger := snd (takeDigits s) in
  let afterPoint :=
    match afterInteger with
    | c :: r => if (c =? dot)%N then r else afterInteger
    | [] => []
    end in
  match snd (takeDigits afterPoint) with
  | [] => true
  | _ :: _ => false
  end.

(** Lines 834-861, on [e.target.value]. *)
Definition handleAmountChange (value : jsstring) (st : State) : State :=
  let cleanedValue := cleanValue value in
  match cleanedValue with
  | [] => mkState RawEmpty (VStr [])
  | _ :: _ =>
      let parsedValue := parseFloat (VStr cleanedValue) in
      if negb (isNaN parsedValue) && matchesDecimalPattern cleanedValue
      then mkState (RawNumber parsedValue) (VStr cleanedValue)
      else mkState RawEmpty (VStr cleanedValue)
  end.

(** Lines 865-871. *)
Definition handleAmountBlur (st : State) : State :=
  match rawAmount st with
  | RawNumber n =>
      if negb (isNaN n)
      then mkState (rawAmount st) (formatRupee (VNum n))
      else mkState (rawAmount st) (VStr [])
  | RawEmpty => mkState (rawAmount st) (VStr [])
  end.

End AmountField.

(* ================================================================== *)
(** ** CustomerDetail: deleting a transaction (lines 486-501) *)
(* ================================================================== *)

Module Deletion.

(** [deleteDoc(txRef)]: removes the document with that id, if any. *)
Definition deleteTransaction (net : outcome) (tid : jsstring) (s : Store)
    : outcome * Store :=
  match net with
  | Rejected e => (Rejected e, s)
  | Resolved =>
      (Resolved,
       mkStore (customers_suppliers s)
               (filter (fun t => negb (streq (id t) tid)) (transactions s)))
  end.

(** [handleDeleteTransaction(transactionId)] only opens the message box
    that asks for confirmation. *)
Definition handleDeleteTransaction (transactionId : jsstring) (w : World)
    : World :=
  showMessageBox
    (str "Are you sure you want to delete this transaction? This action cannot be undone.")
    (str "error") w.

(** The [onConfirm] callback handed to that message box. *)
Definition onConfirm (env : Env) (transactionId : jsstring) (w : World)
    : World :=
  let (result, store') :=
    deleteTransaction (settle env) transactionId (store w) in
  let w := issue (DeleteDoc (str "transactions") transactionId) store' w in
  match result with
  | Resolved =>
      showMessageBox (str "Transaction deleted successfully!") (str "success") w
  | Rejected e =>
      let w := consoleError (str "Error deleting transaction:") e w in
      showMessageBox (str "Failed to delete transaction: " ++ e) (str "error") w
  end.

End Deletion.

(* ================================================================== *)
(** ** Dashboard (lines 316-420) *)
(* ================================================================== *)

Module Dashboard.

(** [where("type", "==", "customer")] on [customers_suppliers]. *)
Definition customerQuery (s : Store) : list Contact :=
  filter (fun c => streq (cs_type c) (str "customer")) (customers_suppliers s).

Record State : Type := mkState {
  customersSuppliers : list Contact;
  loadingCustomers : bool;
  searchQuery : jsstring
}.

(** The two callbacks of [onSnapshot] (lines 328-336). *)
Definition onNext (docs : list Contact) (st : State) : State :=
  mkState docs false (searchQuery st).

Definition onError (message : jsstring) (w : World) (st : State)
    : World * State :=
  let w := consoleError (str "Error fetching customers/suppliers: ") message w in
  let w := showMessageBox (str "Failed to load contacts: " ++ message)
                          (str "error") w in
  (w, mkState (customersSuppliers st) false (searchQuery st)).

(** [s.includes(sub)] *)
Fixpoint includes (s sub : jsstring) : bool :=
  startsWith s sub
  || match s with
     | [] => false
     | _ :: r => includes r sub
     end.

Definition nonEmpty (s : jsstring) : bool :=
  match s with [] => false | _ :: _ => true end.

Section Search.
(** [String.prototype.toLowerCase], which maps code units by the case
    tables of Unicode. *)
Variable toLowerCase : jsstring -> jsstring.

(** The predicate of [filteredContacts] (lines 341-349). *)
Definition matchesSearch (searchQuery : jsstring) (cs : Contact) : bool :=
  let lowerCaseQuery := toLowerCase searchQuery in
  includes (toLowerCase (cs_name cs)) lowerCaseQuery
  || (nonEmpty (cs_mobile cs) && includes (cs_mobile cs) lowerCaseQuery)
  || (nonEmpty (cs_address cs)
      && includes (toLowerCase (cs_address cs)) lowerCaseQuery).

Definition filteredContacts (st : State) : list Contact :=
  filter (matchesSearch (searchQuery st)) (customersSuppliers st).
End Search.

(** [x < 0]; every comparison with NaN is false. *)
Definition lt0 (x : number) : bool :=
  match x with
  | NaN => false
  | Inf a => a
  | Fin q => match (q ?= 0)%Q with Lt => true | _ => false end
  end.

(** [cs.balance || 0]: NaN and zero are falsy. *)
Definition orZero (x : number) : number :=
  match x with
  | NaN => Fin 0
  | Inf a => Inf a
  | Fin q => if Qeq_bool q 0 then Fin 0 else Fin q
  end.

(** [Math.abs(x)] *)
Definition abs (x : number) : number :=
  match x with
  | NaN => NaN
  | Inf _ => Inf false
  | Fin q => Fin (Qabs q)
  end.

(** The amount and the label of a contact's row (lines 406-416). *)
Definition balanceText (cs : Contact) : value :=
  formatRupee (VNum (abs (orZero (cs_balance cs)))).

Definition balanceLabel (cs : Contact) : jsstring :=
  if gt0 (cs_balance cs) then str "They Owe You"
  else if lt0 (cs_balance cs) then str "You Owe"
  else str "Settled".

End Dashboard.

(* ================================================================== *)
(** ** The handlers as steps of the world *)
(* ================================================================== *)

Module App.

(** One run of a handler of [App.jsx] that can touch the world.  The
    snapshot listeners run on whatever documents the store delivers. *)
Inductive step (w : World) : World -> Prop :=
| step_snapshot (env : Env) (cid : jsstring) (docs : list Transaction)
    (st : CustomerDetail.State) :
    step w (fst (CustomerDetail.onNext env cid docs w st))
| step_snapshot_error (message : jsstring) (st : CustomerDetail.State) :
    step w (fst (CustomerDetail.onError message w st))
| step_dashboard_error (message : jsstring) (st : Dashboard.State) :
    step w (fst (Dashboard.onError message w st))
| step_add_customer (env : Env) (name mobile address : jsstring) :
    step w (fst (AddCustomer.handleSubmit env name mobile address w))
| step_submit_transaction (env : Env) (cid cname : jsstring)
    (initial : option Transaction) (rawAmount : value)
    (ty desc : jsstring) (d : Z) :
    step w (fst (TransactionForm.handleSubmit env cid cname initial
                   rawAmount ty desc d w))
| step_delete_request (tid : jsstring) :
    step w (Deletion.handleDeleteTransaction tid w)
| step_delete_confirm (env : Env) (tid : jsstring) :
    step w (Deletion.onConfirm env tid w).

(** Any number of handler runs. *)
Inductive steps (w : World) : World -> Prop :=
| steps_refl : steps w w
| steps_step (w1 w2 : World) : steps w w1 -> step w1 w2 -> steps w w2.

(** What every stored transaction satisfies: a positive amount, a date and
    a last-update timestamp. *)
Definition validTransaction (t : Transaction) : Prop :=
  gt0 (amount t) = true /\ date t <> None /\ updatedAt t <> None.

(** What every stored contact satisfies: a name that is not empty and has
    no white space at either end, and the type 'customer'. *)
Definition trimmed (s : jsstring) : Prop :=
  s <> [] /\ isWhiteSpace (hd 0%N s) = false
  /\ isWhiteSpace (last s 0%N) = false.

Definition validContact (c : Contact) : Prop :=
  trimmed (cs_name c) /\ cs_type c = str "customer".

(** A contact without its cached balance. *)
Definition identity (c : Contact)
    : jsstring * jsstring * jsstring * jsstring * jsstring * Z :=
  (cs_id c, cs_name c, cs_mobile c, cs_address c, cs_type c, cs_createdAt c).

(** The ways in which the handlers change the store. *)
Inductive change (s : Store) : Store -> Prop :=
| unchanged : change s s
| balance_written (cid : jsstring) (b : number) :
    change s
      (mkStore
         (map (fun c =>
                 if streq (cs_id c) cid
                 then mkContact (cs_id c) (cs_name c) (cs_mobile c)
                                (cs_address c) (cs_type c) b (cs_createdAt c)
                 else c)
              (customers_suppliers s))
         (transactions s))
| contact_added (c : Contact) :
    validContact c ->
    change s (mkStore (customers_suppliers s ++ [c]) (transactions s))
| transaction_added (t : Transaction) :
    validTransaction t ->
    change s (mkStore (customers_suppliers s) (transactions s ++ [t]))
| transaction_edited (tid : jsstring) (data : Transaction) :
    validTransaction data ->
    change s
      (mkStore
         (customers_suppliers s)
         (map (fun t =>
                 if streq (id t) tid
                 then mkTransaction (id t) (customerSupplierId data)
                        (amount data) (type data) (description data)
                        (date data) (updatedAt data) (createdAt t)
                 else t)
              (transactions s)))
| transaction_deleted (tid : jsstring) :
    change s
      (mkStore (customers_suppliers s)
               (filter (fun t => negb (streq (id t) tid)) (transactions s))).

End App.

(** [toLowerCase] on strings of ASCII letters, for the examples. *)
Definition asciiLowerCase (s : jsstring) : jsstring :=
  map (fun c => if ((65 <=? c) && (c <=? 90))%N then (c + 32)%N else c) s.

(* ================================================================== *)
(** ** Sample data *)
(* ================================================================== *)

Module Sample.

Definition gave500 : Transaction :=
  mkTransaction (str "t1") (str "c1") (Fin 500) (str "credit")
                (str "ring") (Some 1700000000000) (Some 1700000000500)
                (Some 1700000000500).

Definition got200 : Transaction :=
  mkTransaction (str "t2") (str "c1") (Fin 200) (str "debit")
                (str "cash") (Some 1700086400000) (Some 1700086400700)
                (Some 1700086400700).

Definition other50 : Transaction :=
  mkTransaction (str "t3") (str "c2") (Fin 50) (str "credit")
                [] (Some 1700172800000) (Some 1700172800100)
                (Some 1700172800100).

Definition refund75 : Transaction :=
  mkTransaction (str "t4") (str "c1") (Fin 75) (str "refund")
                [] None None None.

Definition asha : Contact :=
  mkContact (str "c1") (str "Asha") (str "9876543210") [] (str "customer")
            (Fin 0) 1699999999000.

Definition store0 : Store := mkStore [asha] [gave500; got200; other50].

Definition world0 : World := mkWorld store0 [] [] None.

Definition clock (k : nat) : Z := 1700200000000 + Z.of_nat k.

Definition online : Env := mkEnv true Resolved (str "t9") clock.

Definition offline : Env := mkEnv true (Rejected (str "unavailable")) (str "t9") clock.

Definition state0 : CustomerDetail.State :=
  CustomerDetail.mkState [] (Fin 0) true.

End Sample.

(** Documents with whole-number amounts. *)
Module Sample64.

Definition credit (amount date : Z) : IEEE.Document :=
  IEEE.mkDocument (str "t") (str "c1") (IEEE.ofZ amount) (str "credit") []
                  (Some date) None None.

Definition debit (amount date : Z) : IEEE.Document :=
  IEEE.mkDocument (str "t") (str "c1") (IEEE.ofZ amount) (str "debit") []
                  (Some date) None None.


End Sample64.

(** A run of three handlers: a customer is added, a sale to the customer
    is recorded, and an older transaction is deleted. *)
Module Scenario.

Definition afterCustomer : World :=
  fst (AddCustomer.handleSubmit Sample.online (str "  Ravi ") (str "9000000001")
         [] Sample.world0).

Definition afterSale : World :=
  fst (TransactionForm.handleSubmit Sample.online (str "t9") (str "Ravi") None
         (VNum (Fin 120)) (str "credit") (str "chain") 1700259200000
         afterCustomer).

Definition afterDeletion : World :=
  Deletion.onConfirm Sample.online (str "t1") afterSale.

End Scenario.

(* ================================================================== *)
(** * Properties *)
(* ================================================================== *)

(** ** Arithmetic of [number] *)

Module NumberFacts.

Lemma num_eq_refl (x : number) : x =n= x.
Proof. destruct x; simpl; auto. reflexivity. Qed.

Lemma num_eq_sym (x y : number) : x =n= y -> y =n= x.
Proof. destruct x, y; simpl; auto. intros H; symmetry; exact H. Qed.

Lemma num_eq_trans (x y z : number) : x =n= y -> y =n= z -> x =n= z.
Proof.
  destruct x, y, z; simpl; try tauto; try congruence.
  intros H1 H2. rewrite H1. exact H2.
Qed.

#[export] Instance num_eq_Equivalence : Equivalence num_eq.
Proof.
  split.
  - exact num_eq_refl.
  - exact num_eq_sym.
  - exact num_eq_trans.
Qed.

(** Case analysis on every number and flag in sight, then arithmetic. *)
Ltac num_cases :=
  repeat match goal with
         | x : number |- _ => destruct x
         | b : bool |- _ => destruct b
         end;
  simpl in *; try tauto; try discriminate; try congruence; try lra.

#[export] Instance add_Proper : Proper (num_eq ==> num_eq ==> num_eq) add.
Proof. intros x x' Hx y y' Hy. num_cases. Qed.

#[export] Instance sub_Proper : Proper (num_eq ==> num_eq ==> num_eq) sub.
Proof. intros x x' Hx y y' Hy. num_cases. Qed.

#[export] Instance opp_Proper : Proper (num_eq ==> num_eq) opp.
Proof. intros x x' Hx. num_cases. Qed.

Lemma add_comm (x y : number) : add x y =n= add y x.
Proof. num_cases. Qed.

Lemma add_assoc (x y z : number) : add x (add y z) =n= add (add x y) z.
Proof. num_cases. Qed.

Lemma add_zero_r (x : number) : add x (Fin 0) =n= x.
Proof. num_cases. Qed.

Lemma add_zero_l (x : number) : add (Fin 0) x =n= x.
Proof. num_cases. Qed.

Lemma sub_add_opp (x y : number) : sub x y =n= add x (opp y).
Proof. num_cases. Qed.

Lemma opp_add (x y : number) : opp (add x y) =n= add (opp x) (opp y).
Proof. num_cases. Qed.

Lemma opp_zero : opp (Fin 0) =n= Fin 0.
Proof. simpl. lra. Qed.

End NumberFacts.

Import NumberFacts.

(** ** The sort of the snapshot listener *)

Module SortFacts.

Import Ledger.

Section KeyedSort.
Context {A : Type} (key : A -> Z) (cmp : A -> A -> Z).
Hypothesis cmp_key : forall x y, cmp x y = key y - key x.

Lemma insert_Permutation (x : A) (l : list A) :
  Permutation (insert cmp x l) (x :: l).
Proof.
  induction l as [|y l IH]; simpl.
  - reflexivity.
  - destruct (cmp x y <=? 0).
    + reflexivity.
    + rewrite IH. apply perm_swap.
Qed.

Lemma sort_Permutation (l : list A) : Permutation (sort cmp l) l.
Proof.
  induction l as [|x l IH]; simpl.
  - constructor.
  - rewrite insert_Permutation. now constructor.
Qed.

Lemma insert_sorted (x : A) (l : list A) :
  StronglySorted (desc key) l -> StronglySorted (desc key) (insert cmp x l).
Proof.
  induction l as [|y l IH]; simpl; intros Hs.
  - repeat constructor.
  - inversion Hs as [|? ? Hl Hy]; subst.
    destruct (Z.leb_spec (cmp x y) 0) as [Hle|Hgt]; rewrite cmp_key in *.
    + constructor; [exact Hs|].
      constructor; [unfold desc; lia|].
      eapply Forall_impl; [|exact Hy].
      unfold desc; intros; lia.
    + constructor; [now apply IH|].
      rewrite (insert_Permutation x l).
      constructor; [unfold desc; lia | exact Hy].
Qed.

Lemma sort_sorted (l : list A) : StronglySorted (desc key) (sort cmp l).
Proof.
  induction l as [|x l IH]; simpl.
  - constructor.
  - now apply insert_sorted.
Qed.

(** The tie-break: elements of equal key keep their order. *)
Lemma insert_stable (k : Z) (x : A) (l : list A) :
  filter (fun a => key a =? k) (insert cmp x l)
  = filter (fun a => key a =? k) (x :: l).
Proof.
  induction l as [|y l IH]; simpl.
  - reflexivity.
  - destruct (Z.leb_spec (cmp x y) 0) as [Hle|Hgt]; rewrite cmp_key in *.
    + reflexivity.
    + simpl in *. rewrite IH.
      destruct (Z.eqb_spec (key x) k), (Z.eqb_spec (key y) k);
        try reflexivity; lia.
Qed.

Lemma sort_stable (k : Z) (l : list A) :
  filter (fun a => key a =? k) (sort cmp l) = filter (fun a => key a =? k) l.
Proof.
  induction l as [|x l IH]; simpl.
  - reflexivity.
  - rewrite insert_stable. simpl. now rewrite IH.
Qed.

(** In a sorted list a strictly larger key sits at a smaller index. *)
Lemma sorted_nth_error (l : list A) :
  StronglySorted (desc key) l ->
  forall i j a b,
    nth_error l i = Some a -> nth_error l j = Some b ->
    key b < key a -> (i < j)%nat.
Proof.
  induction 1 as [|x l Hs IH Hx]; intros i j a b Hi Hj Hlt.
  - destruct i; discriminate.
  - destruct i as [|i], j as [|j]; simpl in *.
    + injection Hi as <-. injection Hj as <-. lia.
    + lia.
    + injection Hj as <-.
      apply nth_error_In in Hi.
      rewrite Forall_forall in Hx. specialize (Hx _ Hi).
      unfold desc in Hx. lia.
    + apply -> Nat.succ_lt_mono. eapply IH; eauto.
Qed.
End KeyedSort.

Lemma compareFn_key (x y : Transaction) :
  compareFn x y = dateMillis y - dateMillis x.
Proof. reflexivity. Qed.

Lemma sortedTransactions_Permutation (docs : list Transaction) :
  Permutation (sortedTransactions docs) docs.
Proof. apply (sort_Permutation compareFn). Qed.

Lemma sortedTransactions_sorted (docs : list Transaction) :
  StronglySorted (desc dateMillis) (sortedTransactions docs).
Proof. apply (sort_sorted dateMillis compareFn compareFn_key). Qed.

Lemma sortedTransactions_stable (k : Z) (docs : list Transaction) :
  filter (fun t => dateMillis t =? k) (sortedTransactions docs)
  = filter (fun t => dateMillis t =? k) docs.
Proof. apply (sort_stable dateMillis compareFn compareFn_key). Qed.

End SortFacts.

(** ** The balance *)

Module LedgerFacts.

Import Ledger SortFacts.

Lemma streq_eq (s t : jsstring) : streq s t = true <-> s = t.
Proof.
  unfold streq. destruct (list_eq_dec N.eq_dec s t); split; intros; congruence.
Qed.


Lemma accumulate_contribution (b : number) (t : Transaction) :
  accumulate b t =n= add b (contribution t).
Proof.
  unfold accumulate, contribution, isCredit, isDebit.
  destruct (streq (type t) (str "credit")).
  - reflexivity.
  - destruct (streq (type t) (str "debit")).
    + apply sub_add_opp.
    + symmetry. apply add_zero_r.
Qed.

Lemma accumulate_Proper (b b' : number) (t : Transaction) :
  b =n= b' -> accumulate b t =n= accumulate b' t.
Proof.
  intros H. unfold accumulate.
  destruct (streq (type t) (str "credit")); [now rewrite H|].
  destruct (streq (type t) (str "debit")); [now rewrite H|exact H].
Qed.

Lemma fold_accumulate (l : list Transaction) (b : number) :
  fold_left accumulate l b =n= add b (total l).
Proof.
  revert b. induction l as [|t l IH]; intros b; simpl.
  - symmetry. apply add_zero_r.
  - rewrite IH. rewrite accumulate_contribution. symmetry. apply add_assoc.
Qed.

Lemma recomputeBalance_total (l : list Transaction) :
  recomputeBalance l =n= total l.
Proof.
  unfold recomputeBalance. rewrite fold_accumulate. apply add_zero_l.
Qed.

Lemma total_Permutation (l l' : list Transaction) :
  Permutation l l' -> total l =n= total l'.
Proof.
  induction 1 as [|x l l' _ IH|x y l|l l' l'' _ IH1 _ IH2]; simpl.
  - reflexivity.
  - now rewrite IH.
  - rewrite !add_assoc. now rewrite (add_comm (contribution y)).
  - now rewrite IH1.
Qed.

Lemma snapshotBalance_total (docs : list Transaction) :
  snapshotBalance docs =n= total docs.
Proof.
  unfold snapshotBalance. rewrite recomputeBalance_total.
  apply total_Permutation, sortedTransactions_Permutation.
Qed.

Lemma total_cons (t : Transaction) (T : list Transaction) :
  total (t :: T) = add (contribution t) (total T).
Proof. reflexivity. Qed.




(** In exact arithmetic the balance of a snapshot does not depend on the
    order in which the store lists its documents. *)
Lemma snapshotBalance_Permutation (docs docs' : list Transaction) :
  Permutation docs docs' -> snapshotBalance docs =n= snapshotBalance docs'.
Proof.
  intros H. rewrite !snapshotBalance_total. now apply total_Permutation.
Qed.



Lemma total_hasDirection (T : list Transaction) :
  total (filter hasDirection T) =n= total T.
Proof.
  induction T as [|t T IH].
  - reflexivity.
  - cbn [filter]. destruct (hasDirection t) eqn:Hd.
    + rewrite !total_cons. now rewrite IH.
    + rewrite total_cons, IH. unfold contribution.
      unfold hasDirection in Hd. apply orb_false_elim in Hd as [-> ->].
      symmetry. apply add_zero_l.
Qed.

End LedgerFacts.

(** ** The snapshot listener *)

Module CustomerDetailFacts.

Import Ledger SortFacts LedgerFacts.

(** The listener, with the settled write named. *)
Lemma onNext_unfold (env : Env) (cid : jsstring) (docs : list Transaction)
    (w : World) (st : CustomerDetail.State) :
  CustomerDetail.onNext env cid docs w st
  = let r := updateBalance (settle env) cid (snapshotBalance docs) (store w) in
    let w1 := issue (UpdateDoc (str "customers_suppliers") cid) (snd r) w in
    (match fst r with
     | Resolved => w1
     | Rejected e =>
         consoleError (str "Error updating customer/supplier balance:") e w1
     end,
     CustomerDetail.mkState (sortedTransactions docs) (snapshotBalance docs) false).
Proof.
  unfold CustomerDetail.onNext, snapshotBalance, sortedTransactions. simpl.
  destruct (updateBalance _ _ _ _) as [[|e] s']; reflexivity.
Qed.

Lemma onNext_state (env : Env) (cid : jsstring) (docs : list Transaction)
    (w : World) (st : CustomerDetail.State) :
  snd (CustomerDetail.onNext env cid docs w st)
  = CustomerDetail.mkState (sortedTransactions docs) (snapshotBalance docs) false.
Proof. rewrite onNext_unfold. reflexivity. Qed.

Lemma onNext_messageBox (env : Env) (cid : jsstring) (docs : list Transaction)
    (w : World) (st : CustomerDetail.State) :
  messageBox (fst (CustomerDetail.onNext env cid docs w st)) = messageBox w.
Proof.
  rewrite onNext_unfold. simpl.
  destruct (fst (updateBalance _ _ _ _)); reflexivity.
Qed.

Lemma updateBalance_rejected (net : outcome) (cid : jsstring) (b : number)
    (s : Store) (e : jsstring) :
  fst (updateBalance net cid b s) = Rejected e ->
  snd (updateBalance net cid b s) = s.
Proof.
  unfold updateBalance. destruct net; [|reflexivity].
  destruct (hasContact s cid); [discriminate|reflexivity].
Qed.

Lemma query_none (s : Store) (cid : jsstring) :
  (forall t, In t (transactions s) -> customerSupplierId t <> cid) ->
  query s cid = [].
Proof.
  unfold query. induction (transactions s) as [|t l IH]; intros H; simpl.
  - reflexivity.
  - destruct (streq (customerSupplierId t) cid) eqn:E.
    + apply streq_eq in E. exfalso. apply (H t); [now left|exact E].
    + apply IH. intros u Hu. apply H. now right.
Qed.

End CustomerDetailFacts.

(* ================================================================== *)
(** * Main results *)
(* ================================================================== *)

Import Ledger SortFacts LedgerFacts CustomerDetailFacts.

(** A ledger of three documents used in the examples below. *)
Example balance_500_credit_200_debit :
  snapshotBalance
    [mkTransaction (str "t1") (str "c1") (Fin 500) (str "credit") [] (Some 10) None None;
     mkTransaction (str "t2") (str "c1") (Fin 200) (str "debit") [] (Some 20) None None]
  = Fin 300.
Proof. reflexivity. Qed.

Example balance_100_debit :
  snapshotBalance
    [mkTransaction (str "t1") (str "c1") (Fin 100) (str "debit") [] (Some 10) None None]
  = Fin (-100).
Proof. reflexivity. Qed.


(** ** The running sum on doubles *)

Module IEEEFacts.

Import IEEE.


Section SortMap.
Context {A B : Type} (f : A -> B) (cmp : A -> A -> Z) (cmp' : B -> B -> Z).
Hypothesis cmp_f : forall x y, cmp' (f x) (f y) = cmp x y.


End SortMap.




End IEEEFacts.

Import IEEEFacts.

Example doubles_500_credit_200_debit :
  IEEE.snapshotBalance64 [Sample64.credit 500 10; Sample64.debit 200 20]
  = IEEE.ofZ 300.
Proof. reflexivity. Qed.

(** One tenth, two tenths and three tenths as doubles: the running sum of
    credits 0.1 and 0.2 is 0.30000000000000004, not the double 0.3. *)
Example doubles_tenths :
  IEEE.add (IEEE.add IEEE.zero (IEEE.ofBinary 3602879701896397 (-55)))
           (IEEE.ofBinary 3602879701896397 (-54))
  = IEEE.ofBinary 5404319552844596 (-54)
  /\ IEEE.ofBinary 5404319552844596 (-54)
     <> IEEE.ofBinary 5404319552844595 (-54).
Proof. split; [reflexivity|discriminate]. Qed.




Example sorted_sample :
  sortedTransactions [Sample.gave500; Sample.refund75; Sample.got200]
  = [Sample.got200; Sample.gave500; Sample.refund75].
Proof. reflexivity. Qed.

(** C2.  The list a snapshot publishes holds exactly the documents of the
    store whose [customerSupplierId] is the subscribed contact, each as
    often as the store has it, and it is in descending order of the date:
    of two published transactions the one with the strictly later date
    stands at the smaller index.  (A document without a date counts as
    dated at the epoch, as the comparator has it.) *)
Theorem C2_published_list_is_query_sorted_descending
    (env : Env) (cid : jsstring) (w : World) (st : CustomerDetail.State) :
  let published :=
    CustomerDetail.transactions
      (snd (CustomerDetail.onNext env cid (query (store w) cid) w st)) in
  Permutation published (query (store w) cid)
  /\ (forall t, In t published <->
                In t (transactions (store w)) /\ customerSupplierId t = cid)
  /\ (forall i j t u,
         nth_error published i = Some t ->
         nth_error published j = Some u ->
         dateMillis u < dateMillis t -> (i < j)%nat)
  /\ (forall i j t u a b,
         nth_error published i = Some t ->
         nth_error published j = Some u ->
         date t = Some a -> date u = Some b -> b < a -> (i < j)%nat).
Proof.
  cbv zeta. rewrite onNext_state. simpl.
  assert (Hp : Permutation (sortedTransactions (query (store w) cid))
                           (query (store w) cid))
    by apply sortedTransactions_Permutation.
  assert (Hs : forall i j t u,
             nth_error (sortedTransactions (query (store w) cid)) i = Some t ->
             nth_error (sortedTransactions (query (store w) cid)) j = Some u ->
             dateMillis u < dateMillis t -> (i < j)%nat).
  { intros i j t u. apply (sorted_nth_error dateMillis).
    apply sortedTransactions_sorted. }
  split; [exact Hp|]. split; [|split].
  - intros t. unfold query in *. split.
    + intros Hin. apply (Permutation_in _ Hp) in Hin.
      apply filter_In in Hin. rewrite streq_eq in Hin. exact Hin.
    + intros Hin. apply (Permutation_in _ (Permutation_sym Hp)).
      apply filter_In. rewrite streq_eq. exact Hin.
  - exact Hs.
  - intros i j t u a b Hi Hj Ha Hb Hlt. apply (Hs i j t u Hi Hj).
    unfold dateMillis. rewrite Ha, Hb. exact Hlt.
Qed.

Lemma C2_witness :
  let published :=
    CustomerDetail.transactions
      (snd (CustomerDetail.onNext Sample.online (str "c1")
              (query Sample.store0 (str "c1")) Sample.world0 Sample.state0)) in
  nth_error published 0 = Some Sample.got200
  /\ nth_error published 1 = Some Sample.gave500
  /\ dateMillis Sample.gave500 < dateMillis Sample.got200
  /\ (0 < 1)%nat
  /\ In Sample.got200 (transactions Sample.store0).
Proof.
  pose proof (C2_published_list_is_query_sorted_descending
                Sample.online (str "c1") Sample.world0 Sample.state0) as H.
  cbv zeta in H. destruct H as (_ & Hmem & Hord & _).
  cbv zeta. split; [reflexivity|]. split; [reflexivity|].
  split; [reflexivity|]. split.
  - apply (Hord 0%nat 1%nat Sample.got200 Sample.gave500); reflexivity.
  - apply (proj1 (Hmem Sample.got200)). vm_compute. left. reflexivity.
Defined.

(** C3.  The balance recomputed from no transactions is 0; and subscribing,
    on a live connection, with a contact id that no transaction of the
    store carries publishes the empty list and the balance 0 and shows no
    error. *)
Theorem C3_no_transactions_balance_zero
    (env : Env) (cid : jsstring) (w : World) (st : CustomerDetail.State) :
  ready env = true ->
  cid <> [] ->
  (forall t, In t (transactions (store w)) -> customerSupplierId t <> cid) ->
  recomputeBalance [] = Fin 0
  /\ CustomerDetail.transactions (snd (CustomerDetail.subscribe env cid w st)) = []
  /\ CustomerDetail.balance (snd (CustomerDetail.subscribe env cid w st)) = Fin 0
  /\ messageBox (fst (CustomerDetail.subscribe env cid w st)) = messageBox w.
Proof.
  intros Hready Hcid Hnone.
  unfold CustomerDetail.subscribe. rewrite Hready.
  destruct cid as [|c cid']; [congruence|].
  rewrite (query_none _ _ Hnone), onNext_state, onNext_messageBox.
  repeat split.
Qed.

Lemma C3_witness :
  recomputeBalance [] = Fin 0
  /\ CustomerDetail.transactions
       (snd (CustomerDetail.subscribe Sample.online (str "c7") Sample.world0
                                      Sample.state0)) = []
  /\ CustomerDetail.balance
       (snd (CustomerDetail.subscribe Sample.online (str "c7") Sample.world0
                                      Sample.state0)) = Fin 0
  /\ messageBox
       (fst (CustomerDetail.subscribe Sample.online (str "c7") Sample.world0
                                      Sample.state0)) = messageBox Sample.world0.
Proof.
  apply (C3_no_transactions_balance_zero
           Sample.online (str "c7") Sample.world0 Sample.state0).
  - reflexivity.
  - discriminate.
  - intros t Hin. vm_compute in Hin.
    destruct Hin as [<-|[<-|[<-|[]]]]; discriminate.
Defined.

(** C4.  When the write of the recomputed balance onto the contact is
    rejected, the error goes to the console and nowhere else: the message
    box is left as it was, the store is left as it was, and the state the
    listener publishes (sorted list, balance, loading flag cleared) is the
    one it publishes whatever the store answers. *)
Theorem C4_write_back_failure_is_swallowed
    (env : Env) (cid : jsstring) (docs : list Transaction)
    (w : World) (st : CustomerDetail.State) (e : jsstring) :
  fst (updateBalance (settle env) cid (snapshotBalance docs) (store w))
  = Rejected e ->
  let w' := fst (CustomerDetail.onNext env cid docs w st) in
  let st' := snd (CustomerDetail.onNext env cid docs w st) in
  st' = CustomerDetail.mkState (sortedTransactions docs) (snapshotBalance docs) false
  /\ (forall env', snd (CustomerDetail.onNext env' cid docs w st) = st')
  /\ messageBox w' = messageBox w
  /\ console w'
     = console w ++ [(str "Error updating customer/supplier balance:", e)]
  /\ store w' = store w.
Proof.
  intros Hrej. cbv zeta.
  rewrite onNext_state, onNext_messageBox.
  repeat split.
  - intros env'. apply onNext_state.
  - rewrite onNext_unfold. cbv zeta. rewrite Hrej. reflexivity.
  - rewrite onNext_unfold. cbv zeta. rewrite Hrej. simpl.
    eapply updateBalance_rejected. exact Hrej.
Qed.

Lemma C4_witness :
  let docs := [Sample.gave500; Sample.got200] in
  let r := CustomerDetail.onNext Sample.offline (str "c1") docs Sample.world0
                                 Sample.state0 in
  snd r = CustomerDetail.mkState [Sample.got200; Sample.gave500] (Fin 300) false
  /\ (forall env', snd (CustomerDetail.onNext env' (str "c1") docs Sample.world0
                                              Sample.state0) = snd r)
  /\ messageBox (fst r) = None
  /\ console (fst r)
     = [(str "Error updating customer/supplier balance:", str "unavailable")]
  /\ store (fst r) = Sample.store0.
Proof.
  exact (C4_write_back_failure_is_swallowed
           Sample.offline (str "c1") [Sample.gave500; Sample.got200]
           Sample.world0 Sample.state0 (str "unavailable") eq_refl).
Defined.





(** C10.  A transaction whose [type] is neither 'credit' nor 'debit' leaves
    the running balance as it is, and the balance of a snapshot is the
    balance of its transactions that are credits or debits. *)
Theorem C10_other_directions_contribute_nothing
    (T : list Transaction) (currentBalance : number) (t : Transaction) :
  (hasDirection t = false -> accumulate currentBalance t = currentBalance)
  /\ snapshotBalance T =n= snapshotBalance (filter hasDirection T).
Proof.
  split.
  - unfold hasDirection, isCredit, isDebit, accumulate.
    intros H. apply orb_false_elim in H as [-> ->]. reflexivity.
  - rewrite !snapshotBalance_total. symmetry. apply total_hasDirection.
Qed.

Lemma C10_witness :
  accumulate (Fin 300) Sample.refund75 = Fin 300
  /\ snapshotBalance [Sample.gave500; Sample.refund75; Sample.got200]
     =n= snapshotBalance [Sample.gave500; Sample.got200].
Proof.
  split.
  - apply (C10_other_directions_contribute_nothing [] (Fin 300) Sample.refund75).
    reflexivity.
  - apply (C10_other_directions_contribute_nothing
             [Sample.gave500; Sample.refund75; Sample.got200]
             (Fin 0) Sample.refund75).
Defined.

(** ** The two forms *)

Module FormFacts.

Lemma trimStart_whitespace (s : jsstring) :
  Forall (fun c => isWhiteSpace c = true) s -> trimStart s = [].
Proof.
  induction 1 as [|c s Hc _ IH]; simpl.
  - reflexivity.
  - rewrite Hc. exact IH.
Qed.

Lemma trim_whitespace (s : jsstring) :
  Forall (fun c => isWhiteSpace c = true) s -> trim s = [].
Proof.
  intros H. unfold trim, trimEnd. rewrite (trimStart_whitespace s H).
  reflexivity.
Qed.

(** The test of line 879 is the negation of "strictly greater than 0". *)
Lemma not_gt0 (x : number) : gt0 x = false <-> isNaN x || le0 x = true.
Proof.
  destruct x as [|a|q]; simpl.
  - tauto.
  - destruct a; simpl; split; congruence.
  - rewrite Qle_bool_iff.
    destruct (0 ?= q)%Q eqn:E.
    + apply Qeq_alt in E. split; [intros _; lra|reflexivity].
    + apply Qlt_alt in E. split; [discriminate|intros; lra].
    + apply Qgt_alt in E. split; [intros _; lra|reflexivity].
Qed.

Lemma addTransaction_resolved (net : outcome) (t : Transaction) (s s' : Store) :
  addTransaction net t s = (Resolved, s') ->
  transactions s' = transactions s ++ [t].
Proof.
  unfold addTransaction. destruct net; [|discriminate].
  intros H. injection H as <-. reflexivity.
Qed.

Lemma updateTransaction_resolved (net : outcome) (tid : jsstring)
    (data : Transaction) (s s' : Store) :
  updateTransaction net tid data s = (Resolved, s') ->
  forall t', In t' (transactions s') -> id t' = tid ->
    updatedAt t' = updatedAt data
    /\ exists t, In t (transactions s) /\ id t = tid
                 /\ createdAt t' = createdAt t.
Proof.
  unfold updateTransaction. destruct net; [|discriminate].
  destruct (hasTransaction s tid); [|discriminate].
  intros H t' Hin Hid. injection H as <-. simpl in Hin.
  apply in_map_iff in Hin as (t & Ht & Hin).
  destruct (streq (id t) tid) eqn:E.
  - subst t'. simpl. split; [reflexivity|].
    exists t. repeat split; [exact Hin|exact Hid].
  - subst t'. rewrite <- Hid in E.
    assert (streq (id t) (id t) = true) by now apply LedgerFacts.streq_eq.
    congruence.
Qed.

End FormFacts.

Import FormFacts.

(** C5.  A contact whose name is empty or white space only, and a
    transaction whose amount does not parse to a number strictly greater
    than 0, are refused with a message in the message box; no call to the
    store is issued, the store is as it was, and [onSave] is not called. *)
Theorem C5_invalid_input_is_rejected_before_any_store_call
    (env : Env) (w : World)
    (name mobile address : jsstring)
    (cid cname : jsstring) (initial : option Transaction)
    (rawAmount : value) (ty desc : jsstring) (d : Z) :
  (Forall (fun c => isWhiteSpace c = true) name ->
   let r := AddCustomer.handleSubmit env name mobile address w in
   messageBox (fst r) = Some (str "Name cannot be empty.", str "error")
   /\ calls (fst r) = calls w
   /\ store (fst r) = store w
   /\ snd r = false)
  /\
  (gt0 (parseFloat rawAmount) = false ->
   let r := TransactionForm.handleSubmit env cid cname initial rawAmount
                                         ty desc d w in
   messageBox (fst r)
   = Some (str "Please enter a valid positive amount.", str "error")
   /\ calls (fst r) = calls w
   /\ store (fst r) = store w
   /\ snd r = false).
Proof.
  split.
  - intros Hws. unfold AddCustomer.handleSubmit.
    rewrite (trim_whitespace name Hws). repeat split.
  - intros Hgt. apply not_gt0 in Hgt. unfold TransactionForm.handleSubmit.
    cbv zeta. rewrite Hgt. repeat split.
Qed.

Lemma C5_witness :
  (let r := AddCustomer.handleSubmit Sample.online (str "   ")
              (str "9876543210") [] Sample.world0 in
   messageBox (fst r) = Some (str "Name cannot be empty.", str "error")
   /\ calls (fst r) = []
   /\ store (fst r) = Sample.store0
   /\ snd r = false)
  /\
  (let r := TransactionForm.handleSubmit Sample.online (str "c1") (str "Asha")
              None (VNum (Fin 0)) (str "credit") [] 1700259200000
              Sample.world0 in
   messageBox (fst r)
   = Some (str "Please enter a valid positive amount.", str "error")
   /\ calls (fst r) = []
   /\ store (fst r) = Sample.store0
   /\ snd r = false).
Proof.
  pose proof (C5_invalid_input_is_rejected_before_any_store_call
                Sample.online Sample.world0 (str "   ") (str "9876543210") []
                (str "c1") (str "Asha") None (VNum (Fin 0)) (str "credit") []
                1700259200000) as [Hname Hamount].
  split.
  - apply Hname. repeat constructor.
  - apply Hamount. reflexivity.
Defined.

Example empty_amount_rejected :
  snd (TransactionForm.handleSubmit Sample.online (str "c1") (str "Asha") None
         (VStr []) (str "credit") [] 1700259200000 Sample.world0) = false.
Proof. reflexivity. Qed.

(** C6 fails: the record a successful first submission creates carries a
    last-update timestamp next to its creation timestamp. *)
Lemma C6_counterexample :
  let r := TransactionForm.handleSubmit Sample.online (str "c1") (str "Asha")
             None (VNum (Fin 120)) (str "credit") (str "chain") 1700259200000
             Sample.world0 in
  snd r = true
  /\ exists t,
       transactions (store (fst r)) = transactions Sample.store0 ++ [t]
       /\ createdAt t = Some 1700200000001
       /\ updatedAt t = Some 1700200000000
       /\ updatedAt t <> None.
Proof.
  cbv zeta. split; [reflexivity|].
  eexists. split; [reflexivity|].
  split; [reflexivity|]. split; [reflexivity|discriminate].
Qed.

(** C6, amended.  Every record the form writes carries a last-update
    timestamp.  A successful submission of a new transaction appends one
    record, with the id the store gave it, a creation timestamp and a
    last-update timestamp, both read from the clock during the submission.
    A successful edit gives the edited record a last-update timestamp read
    from the clock and leaves its creation timestamp as it was. *)
Theorem C6_written_records_carry_last_update_timestamp
    (env : Env) (w : World) (cid cname : jsstring)
    (initial : option Transaction)
    (rawAmount : value) (ty desc : jsstring) (d : Z) :
  let r := TransactionForm.handleSubmit env cid cname initial rawAmount
                                        ty desc d w in
  snd r = true ->
  match initial with
  | None =>
      exists t,
        transactions (store (fst r)) = transactions (store w) ++ [t]
        /\ id t = freshId env
        /\ createdAt t = Some (now env 1%nat)
        /\ updatedAt t = Some (now env 0%nat)
  | Some edited =>
      forall t', In t' (transactions (store (fst r))) -> id t' = id edited ->
        updatedAt t' = Some (now env 0%nat)
        /\ exists t, In t (transactions (store w)) /\ id t = id edited
                     /\ createdAt t' = createdAt t
  end.
Proof.
  cbv zeta. unfold TransactionForm.handleSubmit. cbv zeta.
  destruct (isNaN (parseFloat rawAmount) || le0 (parseFloat rawAmount));
    [discriminate|].
  destruct (negb (ready env)); [discriminate|].
  destruct initial as [edited|].
  - destruct (updateTransaction _ _ _ _) as [[|e] s'] eqn:E;
      [|discriminate].
    intros _ t' Hin Hid. simpl in Hin.
    destruct (updateTransaction_resolved _ _ _ _ _ E t' Hin Hid) as [Hu Hc].
    split; [exact Hu|exact Hc].
  - destruct (addTransaction _ _ _) as [[|e] s'] eqn:E; [|discriminate].
    intros _. simpl. eexists. split.
    + eapply addTransaction_resolved. exact E.
    + repeat split.
Qed.

Lemma C6_witness :
  exists t,
    transactions
      (store (fst (TransactionForm.handleSubmit Sample.online (str "c1")
                     (str "Asha") None (VNum (Fin 120)) (str "credit")
                     (str "chain") 1700259200000 Sample.world0)))
    = transactions Sample.store0 ++ [t]
    /\ id t = str "t9"
    /\ createdAt t = Some 1700200000001
    /\ updatedAt t = Some 1700200000000.
Proof.
  exact (C6_written_records_carry_last_update_timestamp
           Sample.online Sample.world0 (str "c1") (str "Asha") None
           (VNum (Fin 120)) (str "credit") (str "chain") 1700259200000
           eq_refl).
Defined.

Example edit_keeps_createdAt :
  transactions
    (store (fst (TransactionForm.handleSubmit Sample.online (str "c1")
                   (str "Asha") (Some Sample.gave500) (VNum (Fin 450))
                   (str "debit") (str "ring") 1700000000000 Sample.world0)))
  = [mkTransaction (str "t1") (str "c1") (Fin 450) (str "debit") (str "ring")
       (Some 1700000000000) (Some 1700200000000) (Some 1700000000500);
     Sample.got200; Sample.other50].
Proof. reflexivity. Qed.

(** ** The formatting helpers *)

Module FormatFacts.

Ltac Zify.zify_post_hook ::= Z.to_euclidean_division_equations.

Lemma uintCodeUnits_digits (u : Decimal.uint) :
  Forall (fun c => isDigit c = true) (uintCodeUnits u).
Proof. induction u; simpl; constructor; auto. Qed.

Lemma uintCodeUnits_value (u d : Decimal.uint) :
  fold_left digitStep (uintCodeUnits u) (Z.of_N (DecimalPos.Unsigned.of_lu d))
  = Z.of_N (DecimalPos.Unsigned.of_lu (Decimal.revapp u d)).
Proof.
  revert d.
  induction u; intros d; cbn [fold_left uintCodeUnits Decimal.revapp];
    [reflexivity|..];
    rewrite <- IHu; f_equal; unfold digitStep;
    cbn [DecimalPos.Unsigned.of_lu];
    match goal with
    | |- context [(?c - 48)%N] =>
        let v := eval compute in (c - 48)%N in change (c - 48)%N with v
    end; lia.
Qed.

(** Reading the digits of [n] gives [n] back. *)
Lemma digitsValue_decimalDigits (n : Z) :
  0 <= n -> digitsValue (decimalDigits n) = n.
Proof.
  intros Hn. unfold digitsValue, decimalDigits.
  change 0 with (Z.of_N (DecimalPos.Unsigned.of_lu Decimal.Nil)).
  rewrite uintCodeUnits_value.
  change (Decimal.revapp (N.to_uint (Z.to_N n)) Decimal.Nil)
    with (Decimal.rev (N.to_uint (Z.to_N n))).
  rewrite <- DecimalPos.Unsigned.of_uint_alt.
  change (Pos.of_uint (N.to_uint (Z.to_N n)))
    with (N.of_uint (N.to_uint (Z.to_N n))).
  rewrite DecimalN.Unsigned.of_to. lia.
Qed.

Lemma digit_notComma (c : N) : isDigit c = true -> notComma c = true.
Proof.
  unfold isDigit, notComma, comma. intros H.
  apply andb_true_iff in H as [H1 H2]. apply N.leb_le in H1, H2.
  apply negb_true_iff, N.eqb_neq. lia.
Qed.

(** Induction on lists two elements at a time. *)
Lemma pair_induction {A : Type} (P : list A -> Prop) :
  P [] -> (forall a, P [a]) ->
  (forall a b l, P l -> P (a :: b :: l)) ->
  forall l, P l.
Proof.
  intros H0 H1 H2.
  assert (H : forall l, P l /\ forall a, P (a :: l)).
  { induction l as [|b l [IHa IHb]]; split; auto. }
  intros l. apply H.
Qed.

Lemma groupPairs_notComma (l : jsstring) :
  Forall (fun c => isDigit c = true) l ->
  filter notComma (groupPairs l) = l.
Proof.
  induction l as [| a | a b l IH] using pair_induction; intros Hd.
  - reflexivity.
  - simpl. inversion Hd; subst. now rewrite digit_notComma.
  - inversion Hd as [|? ? Ha Hd']; subst.
    inversion Hd' as [|? ? Hb Hl]; subst.
    destruct l as [|c l].
    + simpl. now rewrite !digit_notComma.
    + change (groupPairs (a :: b :: c :: l))
        with (a :: b :: comma :: groupPairs (c :: l)).
      cbn [filter]. rewrite !digit_notComma by assumption.
      change (notComma comma) with false. cbv iota.
      now rewrite IH.
Qed.

Lemma groupReversed_notComma (l : jsstring) :
  Forall (fun c => isDigit c = true) l ->
  filter notComma (groupReversed l) = l.
Proof.
  intros Hd.
  assert (Hid : filter notComma l = l).
  { clear -Hd. induction Hd as [|c l Hc _ IH]; simpl; [reflexivity|].
    now rewrite digit_notComma, IH. }
  destruct l as [|a [|b [|c [|d l]]]]; try exact Hid.
  change (groupReversed (a :: b :: c :: d :: l))
    with (a :: b :: c :: comma :: groupPairs (d :: l)).
  inversion Hd as [|? ? Ha H1]; subst.
  inversion H1 as [|? ? Hb H2]; subst.
  inversion H2 as [|? ? Hc H3]; subst.
  cbn [filter]. rewrite !digit_notComma by assumption.
  change (notComma comma) with false. cbv iota.
  now rewrite groupPairs_notComma.
Qed.

Lemma groupIndian_notComma (ds : jsstring) :
  Forall (fun c => isDigit c = true) ds ->
  filter notComma (groupIndian ds) = ds.
Proof.
  intros Hd. unfold groupIndian.
  assert (Hr : Forall (fun c => isDigit c = true) (rev ds)).
  { apply Forall_forall. intros c Hc. apply in_rev in Hc.
    rewrite Forall_forall in Hd. now apply Hd. }
  assert (Hf : forall l : jsstring,
             filter notComma (rev l) = rev (filter notComma l)).
  { induction l as [|c l IH]; simpl; [reflexivity|].
    rewrite filter_app, IH. simpl. destruct (notComma c); simpl.
    - reflexivity.
    - now rewrite app_nil_r. }
  rewrite Hf, (groupReversed_notComma _ Hr). apply rev_involutive.
Qed.

(** Where the separators of the pairs are, counting from the units. *)
Lemma groupPairs_nth (l : jsstring) :
  Forall (fun c => isDigit c = true) l ->
  forall i c, nth_error (groupPairs l) i = Some c ->
    if (i mod 3 =? 2)%nat then c = comma else isDigit c = true.
Proof.
  induction l as [| a | a b l IH] using pair_induction; intros Hd i c Hi.
  - destruct i; discriminate.
  - destruct i as [|[|i]]; try discriminate.
    injection Hi as <-. now inversion Hd.
  - inversion Hd as [|? ? Ha Hd']; subst.
    inversion Hd' as [|? ? Hb Hl]; subst.
    destruct l as [|d l].
    + destruct i as [|[|[|i]]]; try discriminate; injection Hi as <-;
        assumption.
    + change (groupPairs (a :: b :: d :: l))
        with (a :: b :: comma :: groupPairs (d :: l)) in Hi.
      destruct i as [|[|[|i]]]; cbn [nth_error] in Hi.
      * injection Hi as <-. exact Ha.
      * injection Hi as <-. exact Hb.
      * injection Hi as <-. reflexivity.
      * specialize (IH Hl i c Hi).
        replace ((S (S (S i))) mod 3 =? 2)%nat with (i mod 3 =? 2)%nat;
          [exact IH|].
        destruct (Nat.eqb_spec (i mod 3) 2),
                 (Nat.eqb_spec ((S (S (S i))) mod 3) 2); lia.
Qed.

(** en-IN grouping, counting from the units: a separator stands at the
    indices 3, 6, 9, ... of the reversed string and digits elsewhere, that
    is, after the last three digits and then after every two. *)
Lemma groupReversed_nth (l : jsstring) :
  Forall (fun c => isDigit c = true) l ->
  forall i c, nth_error (groupReversed l) i = Some c ->
    if (3 <=? i)%nat && (i mod 3 =? 0)%nat then c = comma
    else isDigit c = true.
Proof.
  intros Hd i c Hi.
  assert (Hsmall : forall l' : jsstring,
             Forall (fun c => isDigit c = true) l' -> (length l' <= 3)%nat ->
             nth_error l' i = Some c ->
             if (3 <=? i)%nat && (i mod 3 =? 0)%nat then c = comma
             else isDigit c = true).
  { intros l' Hd' Hlen Hi'.
    assert (Hlt : (i < 3)%nat).
    { assert (nth_error l' i <> None) by congruence.
      apply nth_error_Some in H. lia. }
    destruct (Nat.leb_spec 3 i); [lia|]. simpl.
    apply nth_error_In in Hi'. rewrite Forall_forall in Hd'. now apply Hd'. }
  destruct l as [|a [|b [|c0 [|d l]]]];
    try (apply (Hsmall _ Hd); [simpl; lia|exact Hi]).
  change (groupReversed (a :: b :: c0 :: d :: l))
    with (a :: b :: c0 :: comma :: groupPairs (d :: l)) in Hi.
  inversion Hd as [|? ? Ha H1]; subst.
  inversion H1 as [|? ? Hb H2]; subst.
  inversion H2 as [|? ? Hc H3]; subst.
  destruct i as [|[|[|[|i]]]]; cbn [nth_error] in Hi.
  - injection Hi as <-. exact Ha.
  - injection Hi as <-. exact Hb.
  - injection Hi as <-. exact Hc.
  - injection Hi as <-. reflexivity.
  - pose proof (groupPairs_nth _ H3 i c Hi) as Hp.
    replace ((3 <=? S (S (S (S i))))%nat && (S (S (S (S i))) mod 3 =? 0)%nat)
      with (i mod 3 =? 2)%nat; [exact Hp|].
    destruct (Nat.eqb_spec (i mod 3) 2),
             (Nat.eqb_spec ((S (S (S (S i)))) mod 3) 0),
             (Nat.leb_spec 3 (S (S (S (S i))))); simpl; lia.
Qed.



Lemma hd_rev {A : Type} (l : list A) (d : A) : hd d (rev l) = last l d.
Proof.
  induction l as [|a l IH]; simpl; [reflexivity|].
  destruct l as [|b l]; [reflexivity|].
  rewrite <- IH. simpl. destruct (rev l ++ [b]) eqn:E; [|reflexivity].
  destruct (rev l); discriminate.
Qed.


Lemma decimalDigits_digits (n : Z) :
  Forall (fun c => isDigit c = true) (decimalDigits n).
Proof. apply uintCodeUnits_digits. Qed.

Lemma decimalDigits_hd (n : Z) (d : N) :
  isDigit (hd d (decimalDigits n)) = true.
Proof.
  pose proof (decimalDigits_digits n) as Hd. unfold decimalDigits in *.
  assert (Hnil : N.to_uint (Z.to_N n) <> Decimal.Nil).
  { destruct (Z.to_N n) as [|p]; [discriminate|].
    apply DecimalPos.Unsigned.to_uint_nonnil. }
  destruct (N.to_uint (Z.to_N n)); try congruence; inversion Hd; assumption.
Qed.

(** [hundredths] rounds to the nearest hundredth, ties away from zero. *)
Lemma hundredths_nearest (q : Q) :
  0 <= hundredths q
  /\ (inject_Z (hundredths q) - (1 # 2) <= Qabs q * 100
      < inject_Z (hundredths q) + (1 # 2))%Q.
Proof.
  unfold hundredths.
  pose proof (Qfloor_le (Qabs q * 100 + (1 # 2))) as Hle.
  pose proof (Qlt_floor (Qabs q * 100 + (1 # 2))) as Hlt.
  pose proof (Qabs_nonneg q) as Hq.
  rewrite inject_Z_plus in Hlt. change (inject_Z 1) with 1%Q in Hlt.
  split; [|split; lra].
  assert (H0 : (Qfloor 0 <= Qfloor (Qabs q * 100 + (1 # 2)))%Z)
    by (apply Qfloor_resp_le; lra).
  exact H0.
Qed.

End FormatFacts.

Import FormatFacts.

Example parseFloat_samples :
  parseFloat (VStr (str "  12.50 rupees")) =n= Fin (25 # 2)
  /\ parseFloat (VStr (str "-.5e1")) =n= Fin (-5)
  /\ parseFloat (VStr (str "7.")) =n= Fin 7
  /\ parseFloat (VStr []) = NaN
  /\ parseFloat (VStr (str ".")) = NaN
  /\ parseFloat (VStr (str "+Infinity")) = Inf false
  /\ parseFloat VUndefined = NaN.
Proof. repeat split. Qed.

Example formatRupee_1234_5 :
  formatRupee (VNum (Fin (12345 # 10))) = VStr (rupeeSign :: str "1,234.50").
Proof. reflexivity. Qed.

Example formatRupee_lakhs :
  formatRupee (VStr (str "1234567.891")) = VStr (rupeeSign :: str "12,34,567.89").
Proof. reflexivity. Qed.

Example formatRupee_abc : formatRupee (VStr (str "abc")) = VStr (str "abc").
Proof. reflexivity. Qed.

Example formatRupee_prefix :
  formatRupee (VStr (str "12abc")) = VStr (rupeeSign :: str "12.00").
Proof. reflexivity. Qed.




Example phone_local :
  getFormattedMobileForWhatsApp (str "9876543210") = str "+919876543210".
Proof. reflexivity. Qed.

Example phone_with_country_code :
  getFormattedMobileForWhatsApp (str "919876543210") = str "+919876543210".
Proof. reflexivity. Qed.

Example phone_punctuated :
  getFormattedMobileForWhatsApp (str "+91 98765-43210") = str "+919876543210".
Proof. reflexivity. Qed.

Example phone_short_91 :
  getFormattedMobileForWhatsApp (str "912345") = str "+91912345".
Proof. reflexivity. Qed.

(** C8 fails at the empty string: the guard of line 55 returns the empty
    string, where the rule gives "+91". *)
Lemma C8_counterexample :
  getFormattedMobileForWhatsApp [] = []
  /\ specNormalizedPhone [] = str "+91"
  /\ getFormattedMobileForWhatsApp [] <> specNormalizedPhone [].
Proof. repeat split; discriminate. Qed.

(** C8, amended.  For every non-empty input string, with [digits] the
    input stripped of its non-digits: when [digits] begins with "91" and
    has at least ten digits the output is "+" followed by [digits], and
    otherwise it is "+91" followed by [digits].  The empty input gives the
    empty output. *)
Theorem C8_phone_normalization_of_nonempty_input (mobile : jsstring) :
  mobile <> [] ->
  let digits := filter isDigit mobile in
  getFormattedMobileForWhatsApp mobile = specNormalizedPhone mobile
  /\ (startsWith digits (str "91") = true /\ (10 <= length digits)%nat ->
      getFormattedMobileForWhatsApp mobile = str "+" ++ digits)
  /\ (~ (startsWith digits (str "91") = true /\ (10 <= length digits)%nat) ->
      getFormattedMobileForWhatsApp mobile = str "+91" ++ digits)
  /\ getFormattedMobileForWhatsApp [] = [].
Proof.
  intros Hne digits.
  assert (Heq : getFormattedMobileForWhatsApp mobile = specNormalizedPhone mobile).
  { destruct mobile; [congruence|reflexivity]. }
  split; [exact Heq|]. rewrite Heq. unfold specNormalizedPhone.
  fold digits. split; [|split].
  - intros [Hs Hl]. rewrite Hs. apply Nat.leb_le in Hl. rewrite Hl. reflexivity.
  - intros Hn.
    destruct (startsWith digits (str "91")) eqn:Hs; [|reflexivity].
    destruct (Nat.leb_spec 10 (length digits)) as [Hl|Hl]; [|reflexivity].
    exfalso. apply Hn. split; [reflexivity|exact Hl].
  - reflexivity.
Qed.

Lemma C8_witness :
  getFormattedMobileForWhatsApp (str "98765 43210") = str "+919876543210"
  /\ getFormattedMobileForWhatsApp (str "91-98765-43210") = str "+919876543210".
Proof.
  split.
  - apply (C8_phone_normalization_of_nonempty_input (str "98765 43210")).
    + discriminate.
    + intros [H _]. discriminate H.
  - apply (C8_phone_normalization_of_nonempty_input (str "91-98765-43210")).
    + discriminate.
    + split; [reflexivity|]. simpl. lia.
Defined.

(* ================================================================== *)
(** * Further results *)
(* ================================================================== *)

(** ** The listener, once more *)

Module ListenerFacts.

Section SortedAlready.
Context {A : Type} (key : A -> Z) (cmp : A -> A -> Z).
Hypothesis cmp_key : forall x y, cmp x y = key y - key x.

Lemma sort_of_sorted (l : list A) :
  StronglySorted (desc key) l -> sort cmp l = l.
Proof.
  induction 1 as [|x l Hs IH Hx]; simpl.
  - reflexivity.
  - rewrite IH. destruct l as [|y l']; [reflexivity|]. simpl.
    inversion Hx as [|? ? Hxy _]; subst. unfold desc in Hxy.
    rewrite cmp_key.
    destruct (Z.leb_spec (key y - key x) 0); [reflexivity|lia].
Qed.
End SortedAlready.

Lemma sortedTransactions_idempotent (docs : list Transaction) :
  sortedTransactions (sortedTransactions docs) = sortedTransactions docs.
Proof.
  apply (sort_of_sorted dateMillis compareFn compareFn_key).
  apply sortedTransactions_sorted.
Qed.

Lemma recomputeBalance_sorted (docs : list Transaction) :
  snapshotBalance (sortedTransactions docs) = snapshotBalance docs.
Proof. unfold snapshotBalance. now rewrite sortedTransactions_idempotent. Qed.

Lemma updateBalance_resolved (cid : jsstring) (b : number) (s : Store) :
  hasContact s cid = true ->
  updateBalance Resolved cid b s
  = (Resolved,
     mkStore
       (map (fun c =>
               if streq (cs_id c) cid
               then mkContact (cs_id c) (cs_name c) (cs_mobile c)
                              (cs_address c) (cs_type c) b (cs_createdAt c)
               else c)
            (customers_suppliers s))
       (transactions s)).
Proof. intros H. unfold updateBalance. now rewrite H. Qed.

Lemma updateBalance_identity (net : outcome) (cid : jsstring) (b : number)
    (s : Store) :
  map App.identity (customers_suppliers (snd (updateBalance net cid b s)))
  = map App.identity (customers_suppliers s)
  /\ transactions (snd (updateBalance net cid b s)) = transactions s.
Proof.
  unfold updateBalance. destruct net; [|split; reflexivity].
  destruct (hasContact s cid); [|split; reflexivity].
  simpl. split; [|reflexivity].
  rewrite map_map. apply map_ext. intros c.
  destruct (streq (cs_id c) cid); reflexivity.
Qed.

End ListenerFacts.

Import ListenerFacts.

(** X1.  Transactions of equal date are published in the order in which
    the snapshot lists them: for every date, the published transactions of
    that date are those of the snapshot, in the same order. *)
Theorem X1_equal_dates_keep_snapshot_order
    (env : Env) (cid : jsstring) (docs : list Transaction)
    (w : World) (st : CustomerDetail.State) (k : Z) :
  filter (fun t => dateMillis t =? k)
         (CustomerDetail.transactions
            (snd (CustomerDetail.onNext env cid docs w st)))
  = filter (fun t => dateMillis t =? k) docs.
Proof. rewrite onNext_state. simpl. apply sortedTransactions_stable. Qed.

Module OrderFacts.

Section Unique.
Context {A : Type} (key : A -> Z).

(** Two lists in descending order of pairwise distinct keys that hold the
    same elements are the same list. *)
Lemma sorted_unique (l l' : list A) :
  StronglySorted (desc key) l -> StronglySorted (desc key) l' ->
  Permutation l l' -> NoDup (map key l) -> l = l'.
Proof.
  intros Hs. revert l'.
  induction Hs as [|x r Hr IH Hx]; intros l' Hs' Hp Hnd.
  - apply Permutation_nil in Hp. now subst.
  - destruct l' as [|y r'].
    { apply Permutation_sym, Permutation_nil in Hp. discriminate. }
    inversion Hs' as [|? ? Hr' Hy]; subst.
    inversion Hnd as [|? ? Hnotin Hnd']; subst.
    assert (Hxy : x = y).
    { assert (Hin : In x (y :: r'))
        by (apply (Permutation_in _ Hp); now left).
      destruct Hin as [E|Hin]; [now symmetry|].
      assert (Hin' : In y (x :: r))
        by (apply (Permutation_in _ (Permutation_sym Hp)); now left).
      destruct Hin' as [E|Hin']; [exact E|]. exfalso.
      rewrite Forall_forall in Hx, Hy.
      pose proof (Hx _ Hin') as H1. pose proof (Hy _ Hin) as H2.
      unfold desc in H1, H2.
      apply Hnotin. replace (key x) with (key y) by lia.
      now apply in_map. }
    subst y. f_equal. apply IH; [exact Hr'| |exact Hnd'].
    now apply Permutation_cons_inv in Hp.
Qed.
End Unique.

End OrderFacts.

(** X2.  When the documents of a snapshot have pairwise distinct dates,
    what the listener publishes does not depend on the order in which the
    store lists them: two snapshots that are permutations of each other
    give the same list and the same balance. *)
Theorem X2_published_state_independent_of_document_order
    (env env' : Env) (cid : jsstring) (docs docs' : list Transaction)
    (w w' : World) (st st' : CustomerDetail.State) :
  Permutation docs docs' ->
  NoDup (map dateMillis docs) ->
  snd (CustomerDetail.onNext env cid docs w st)
  = snd (CustomerDetail.onNext env' cid docs' w' st').
Proof.
  intros Hp Hnd. rewrite !onNext_state.
  assert (E : sortedTransactions docs = sortedTransactions docs').
  { apply (OrderFacts.sorted_unique dateMillis).
    - apply sortedTransactions_sorted.
    - apply sortedTransactions_sorted.
    - rewrite (sortedTransactions_Permutation docs), Hp.
      symmetry. apply sortedTransactions_Permutation.
    - apply (Permutation_NoDup (l := map dateMillis docs)); [|exact Hnd].
      apply Permutation_map. symmetry. apply sortedTransactions_Permutation. }
  unfold snapshotBalance. now rewrite E.
Qed.

Lemma X2_witness :
  snd (CustomerDetail.onNext Sample.online (str "c1")
         [Sample.gave500; Sample.got200] Sample.world0 Sample.state0)
  = snd (CustomerDetail.onNext Sample.offline (str "c1")
           [Sample.got200; Sample.gave500] Sample.world0 Sample.state0).
Proof.
  apply (X2_published_state_independent_of_document_order
           Sample.online Sample.offline (str "c1")
           [Sample.gave500; Sample.got200] [Sample.got200; Sample.gave500]).
  - apply perm_swap.
  - repeat constructor; simpl; intuition discriminate.
Defined.

(** X3.  Delivering to the listener the list it has just published changes
    nothing: the list and the balance it publishes are the same again. *)
Theorem X3_listener_is_idempotent_on_its_output
    (env env' : Env) (cid : jsstring) (docs : list Transaction)
    (w w' : World) (st st' : CustomerDetail.State) :
  let published := snd (CustomerDetail.onNext env cid docs w st) in
  snd (CustomerDetail.onNext env' cid
         (CustomerDetail.transactions published) w' st')
  = published.
Proof.
  cbv zeta. rewrite !onNext_state. simpl.
  now rewrite sortedTransactions_idempotent, recomputeBalance_sorted.
Qed.

(** X4.  When the write-back is accepted for an existing contact, the
    cached balance of that contact is the balance just published; no other
    field of any contact changes, no contact is added or removed, the
    transactions are untouched, and neither the console nor the message
    box is written. *)
Theorem X4_accepted_write_back_updates_only_the_cached_balance
    (env : Env) (cid : jsstring) (docs : list Transaction)
    (w : World) (st : CustomerDetail.State) :
  settle env = Resolved ->
  hasContact (store w) cid = true ->
  let w' := fst (CustomerDetail.onNext env cid docs w st) in
  let st' := snd (CustomerDetail.onNext env cid docs w st) in
  (forall c, In c (customers_suppliers (store w')) -> cs_id c = cid ->
     cs_balance c = CustomerDetail.balance st')
  /\ (forall c, In c (customers_suppliers (store w')) -> cs_id c <> cid ->
        In c (customers_suppliers (store w)))
  /\ map App.identity (customers_suppliers (store w'))
     = map App.identity (customers_suppliers (store w))
  /\ transactions (store w') = transactions (store w)
  /\ console w' = console w
  /\ messageBox w' = messageBox w.
Proof.
  intros Hs Hc. cbv zeta. rewrite onNext_state, onNext_unfold. cbv zeta.
  rewrite Hs, (updateBalance_resolved _ _ _ Hc). simpl.
  split; [|split; [|split; [|repeat split]]].
  - intros c Hin Hid. apply in_map_iff in Hin as (c0 & <- & _).
    destruct (streq (cs_id c0) cid) eqn:E; [reflexivity|].
    rewrite <- Hid in E.
    assert (streq (cs_id c0) (cs_id c0) = true) by now apply streq_eq.
    congruence.
  - intros c Hin Hid. apply in_map_iff in Hin as (c0 & <- & Hin).
    destruct (streq (cs_id c0) cid) eqn:E; [|exact Hin].
    apply streq_eq in E. simpl in Hid. congruence.
  - rewrite map_map. apply map_ext. intros c.
    destruct (streq (cs_id c) cid); reflexivity.
Qed.

Lemma X4_witness :
  let r := CustomerDetail.onNext Sample.online (str "c1")
             [Sample.gave500; Sample.got200] Sample.world0 Sample.state0 in
  map cs_balance (customers_suppliers (store (fst r))) = [Fin 300]
  /\ transactions (store (fst r)) = transactions Sample.store0.
Proof.
  pose proof (X4_accepted_write_back_updates_only_the_cached_balance
                Sample.online (str "c1") [Sample.gave500; Sample.got200]
                Sample.world0 Sample.state0 eq_refl eq_refl) as H.
  cbv zeta in H. destruct H as (_ & _ & _ & Htx & _).
  cbv zeta. split; [reflexivity|exact Htx].
Defined.

(** ** The amount field *)

Module AmountFacts.

Import AmountField.

(** Settles comparisons of code units by case analysis and arithmetic. *)
Ltac code_units :=
  repeat match goal with
         | |- context [(?a <=? ?b)%N] => destruct (N.leb_spec a b); try lia
         | |- context [(?a =? ?b)%N] => destruct (N.eqb_spec a b); try lia
         end;
  simpl; try reflexivity; try discriminate; try lia.

Lemma isDigit_range (c : N) : isDigit c = true <-> (48 <= c <= 57)%N.
Proof.
  unfold isDigit. rewrite andb_true_iff, !N.leb_le. reflexivity.
Qed.

Lemma keeps_cases (c : N) : keeps c = true -> isDigit c = true \/ c = dot.
Proof.
  unfold keeps. intros H. apply orb_true_iff in H as [H|H]; [now left|].
  right. now apply N.eqb_eq.
Qed.

Lemma cleanValue_keeps (value : jsstring) :
  Forall (fun c => keeps c = true) (cleanValue value).
Proof.
  apply Forall_forall. intros c Hc. unfold cleanValue in Hc.
  apply filter_In in Hc. apply Hc.
Qed.

(** What [takeDigits] returns: the digits in front, and a rest that does
    not begin with a digit. *)
Lemma takeDigits_spec (s : jsstring) :
  s = fst (takeDigits s) ++ snd (takeDigits s)
  /\ Forall (fun c => isDigit c = true) (fst (takeDigits s))
  /\ isDigit (hd 0%N (snd (takeDigits s))) = false.
Proof.
  induction s as [|c s (IH1 & IH2 & IH3)].
  - repeat split. constructor.
  - cbn [takeDigits]. destruct (isDigit c) eqn:E.
    + destruct (takeDigits s) as [ds rest]. cbn [fst snd] in *.
      split; [simpl; now rewrite <- IH1|].
      split; [now constructor|exact IH3].
    + cbn [fst snd hd app]. repeat split; [constructor|exact E].
Qed.

Lemma takeDigits_app (ds rest : jsstring) :
  Forall (fun c => isDigit c = true) ds ->
  isDigit (hd 0%N rest) = false ->
  takeDigits (ds ++ rest) = (ds, rest).
Proof.
  intros Hd Hr. induction Hd as [|c ds Hc _ IH].
  - destruct rest as [|c rest]; [reflexivity|]. cbn [hd] in Hr.
    cbn [app takeDigits]. now rewrite Hr.
  - cbn [app takeDigits]. now rewrite Hc, IH.
Qed.

Lemma takeDigits_all (ds : jsstring) :
  Forall (fun c => isDigit c = true) ds -> takeDigits ds = (ds, []).
Proof.
  intros Hd. rewrite <- (app_nil_r ds) at 1.
  now apply takeDigits_app.
Qed.

Lemma digitsValue_nonneg_from (ds : jsstring) (acc : Z) :
  0 <= acc -> 0 <= fold_left digitStep ds acc.
Proof.
  revert acc. induction ds as [|c ds IH]; intros acc Ha; simpl.
  - exact Ha.
  - apply IH. unfold digitStep. lia.
Qed.

Lemma digitsValue_nonneg (ds : jsstring) : 0 <= digitsValue ds.
Proof. apply digitsValue_nonneg_from. lia. Qed.

Lemma pow10_pos (e : Z) : (0 < pow10 e)%Q.
Proof.
  unfold pow10. destruct (Z.leb_spec 0 e).
  - unfold Qlt, inject_Z. simpl. assert (0 < 10 ^ e) by (apply Z.pow_pos_nonneg; lia).
    lia.
  - reflexivity.
Qed.

Lemma decimalValue_nonneg (ip fp : jsstring) (e : Z) :
  (0 <= decimalValue ip fp e)%Q.
Proof.
  unfold decimalValue. apply Qmult_le_0_compat.
  - unfold Qle, inject_Z. simpl.
    pose proof (digitsValue_nonneg (ip ++ fp)). lia.
  - apply Qlt_le_weak, pow10_pos.
Qed.

(** An unsigned literal never reads as a negative number. *)
Lemma parseUnsigned_not_negative (s : jsstring) :
  Dashboard.lt0 (parseUnsigned s) = false.
Proof.
  assert (Hfin : forall ip fp e,
             Dashboard.lt0 (Fin (decimalValue ip fp e)) = false).
  { intros ip fp e. simpl.
    pose proof (decimalValue_nonneg ip fp e) as H.
    destruct (decimalValue ip fp e ?= 0)%Q eqn:E; try reflexivity.
    apply Qlt_alt in E. lra. }
  unfold parseUnsigned.
  destruct (startsWith s (str "Infinity")); [reflexivity|].
  destruct (takeDigits s) as [ip r1].
  destruct r1 as [|c r2].
  - destruct ip; [reflexivity|apply Hfin].
  - destruct (c =? 46)%N.
    + destruct (takeDigits r2) as [fp r3].
      destruct ip; [destruct fp; [reflexivity|apply Hfin]|apply Hfin].
    + destruct ip; [reflexivity|apply Hfin].
Qed.

(** On a string that begins with a digit or a point, [parseFloat] reads an
    unsigned literal. *)
Lemma parseFloat_kept (c : N) (r : jsstring) :
  keeps c = true -> parseFloat (VStr (c :: r)) = parseUnsigned (c :: r).
Proof.
  intros H. apply keeps_cases in H.
  assert (Hc : (48 <= c <= 57)%N \/ c = 46%N).
  { destruct H as [H|H]; [left; now apply isDigit_range|right; exact H]. }
  assert (Hws : isWhiteSpace c = false).
  { unfold isWhiteSpace. destruct Hc as [Hc|Hc]; [|subst c]; code_units. }
  unfold parseFloat. cbn [trimStart]. rewrite Hws.
  destruct Hc as [Hc|Hc]; [|subst c]; code_units.
Qed.

Lemma startsWith_Infinity (c : N) (r : jsstring) :
  keeps c = true -> startsWith (c :: r) (str "Infinity") = false.
Proof.
  intros H. apply keeps_cases in H.
  change (str "Infinity") with (73%N :: str "nfinity"). cbn [startsWith].
  unfold AmountField.dot in H.
  destruct H as [H|H]; [apply isDigit_range in H|subst c]; code_units.
Qed.

End AmountFacts.

Import AmountFacts.

(** X5.  Whatever is typed into the amount field, the field then shows the
    typed text without everything but digits and points, and it holds
    either no amount or a number that is neither NaN nor negative. *)
Theorem X5_amount_field_holds_no_negative_number
    (value : jsstring) (st : AmountField.State) :
  let st' := AmountField.handleAmountChange value st in
  AmountField.displayAmount st' = VStr (AmountField.cleanValue value)
  /\ Forall (fun c => isDigit c = true \/ c = AmountField.dot)
            (AmountField.cleanValue value)
  /\ match AmountField.rawAmount st' with
     | AmountField.RawEmpty => True
     | AmountField.RawNumber n => isNaN n = false /\ Dashboard.lt0 n = false
     end.
Proof.
  cbv zeta. pose proof (cleanValue_keeps value) as Hk.
  unfold AmountField.handleAmountChange.
  split; [|split].
  - destruct (AmountField.cleanValue value); [reflexivity|].
    destruct (negb _ && _); reflexivity.
  - eapply Forall_impl; [|exact Hk]. intros c. apply keeps_cases.
  - destruct (AmountField.cleanValue value) as [|c r] eqn:E; [exact I|].
    inversion Hk as [|? ? Hc _]; subst.
    cbv zeta. rewrite (parseFloat_kept c r Hc).
    destruct (isNaN (parseUnsigned (c :: r))) eqn:En; cbn [negb andb];
      [exact I|].
    destruct (AmountField.matchesDecimalPattern (c :: r));
      cbn [AmountField.rawAmount]; [|exact I].
    split; [exact En|apply parseUnsigned_not_negative].
Qed.

Module PatternFacts.

Import AmountField.

Lemma dot_not_digit : isDigit dot = false.
Proof. reflexivity. Qed.

Lemma digit_keeps (c : N) : isDigit c = true -> keeps c = true.
Proof. unfold keeps. now intros ->. Qed.

Lemma rest_begins_with_point (r : jsstring) :
  Forall (fun c => keeps c = true) r -> isDigit (hd 0%N r) = false ->
  r = [] \/ exists r', r = dot :: r'.
Proof.
  intros Hk Hd. destruct r as [|c r]; [now left|right].
  inversion Hk as [|? ? Hc _]; subst. simpl in Hd.
  apply keeps_cases in Hc as [Hc|Hc]; [congruence|].
  subst c. now exists r.
Qed.

(** A string of digits and points is a run of digits, or two runs around a
    point, or has two points. *)
Lemma kept_shape (s : jsstring) :
  Forall (fun c => keeps c = true) s ->
  Forall (fun c => isDigit c = true) s
  \/ (exists d1 d2, s = d1 ++ dot :: d2 /\ Forall (fun c => isDigit c = true) d1 /\ Forall (fun c => isDigit c = true) d2)
  \/ (exists d1 d2 r, s = d1 ++ dot :: d2 ++ dot :: r
                      /\ Forall (fun c => isDigit c = true) d1 /\ Forall (fun c => isDigit c = true) d2).
Proof.
  intros Hk.
  pose proof (takeDigits_spec s) as H.
  destruct (takeDigits s) as [d1 r1]. cbn [fst snd] in H.
  destruct H as (Hs & Hd1 & Hr1). subst s.
  apply Forall_app in Hk as [_ Hk1].
  destruct (rest_begins_with_point r1 Hk1 Hr1) as [E|[r2 E]]; subst r1.
  - left. now rewrite app_nil_r.
  - right. inversion Hk1 as [|? ? _ Hk2]; subst.
    pose proof (takeDigits_spec r2) as H.
    destruct (takeDigits r2) as [d2 r3]. cbn [fst snd] in H.
    destruct H as (Hs2 & Hd2 & Hr3). subst r2.
    apply Forall_app in Hk2 as [_ Hk3].
    destruct (rest_begins_with_point r3 Hk3 Hr3) as [E3|[r4 E3]]; subst r3.
    + left. exists d1, d2. rewrite app_nil_r. auto.
    + right. exists d1, d2, r4. auto.
Qed.

Lemma pattern_digits (d1 : jsstring) :
  Forall (fun c => isDigit c = true) d1 -> matchesDecimalPattern d1 = true.
Proof.
  intros H. unfold matchesDecimalPattern. now rewrite (takeDigits_all d1 H).
Qed.

Lemma pattern_point (d1 d2 : jsstring) :
  Forall (fun c => isDigit c = true) d1 -> Forall (fun c => isDigit c = true) d2 -> matchesDecimalPattern (d1 ++ dot :: d2) = true.
Proof.
  intros H1 H2. unfold matchesDecimalPattern.
  rewrite (takeDigits_app d1 (dot :: d2) H1 dot_not_digit). cbn [snd].
  rewrite N.eqb_refl. now rewrite (takeDigits_all d2 H2).
Qed.

Lemma pattern_two_points (d1 d2 r : jsstring) :
  Forall (fun c => isDigit c = true) d1 -> Forall (fun c => isDigit c = true) d2 ->
  matchesDecimalPattern (d1 ++ dot :: d2 ++ dot :: r) = false.
Proof.
  intros H1 H2. unfold matchesDecimalPattern.
  rewrite (takeDigits_app d1 (dot :: d2 ++ dot :: r) H1 dot_not_digit).
  cbn [snd]. rewrite N.eqb_refl.
  now rewrite (takeDigits_app d2 (dot :: r) H2 dot_not_digit).
Qed.

Lemma parse_digits (c : N) (d1 : jsstring) :
  Forall (fun c => isDigit c = true) (c :: d1) ->
  parseUnsigned (c :: d1) = Fin (decimalValue (c :: d1) [] 0).
Proof.
  intros H. unfold parseUnsigned.
  rewrite startsWith_Infinity
    by (apply digit_keeps; now inversion H).
  now rewrite (takeDigits_all _ H).
Qed.

Lemma parse_point (d1 d2 : jsstring) :
  Forall (fun c => isDigit c = true) d1 -> Forall (fun c => isDigit c = true) d2 ->
  parseUnsigned (d1 ++ dot :: d2)
  = match d1, d2 with
    | [], [] => NaN
    | _, _ => Fin (decimalValue d1 d2 0)
    end.
Proof.
  intros H1 H2. unfold parseUnsigned.
  assert (Hi : startsWith (d1 ++ dot :: d2) (str "Infinity") = false).
  { destruct d1 as [|c d1]; cbn [app].
    - now apply startsWith_Infinity.
    - apply startsWith_Infinity, digit_keeps. now inversion H1. }
  rewrite Hi, (takeDigits_app d1 (dot :: d2) H1 dot_not_digit).
  change (dot =? 46)%N with true. cbv iota.
  rewrite (takeDigits_all d2 H2). reflexivity.
Qed.

Lemma digits_no_point (d : jsstring) :
  Forall (fun c => isDigit c = true) d -> count_occ N.eq_dec d dot = 0%nat.
Proof.
  intros H. apply count_occ_not_In. intros Hin.
  rewrite Forall_forall in H. specialize (H _ Hin). discriminate.
Qed.

End PatternFacts.

Import PatternFacts.

Example amount_typed_samples :
  AmountField.rawAmount
    (AmountField.handleAmountChange (str "Rs 1,250.5") (AmountField.initialState None))
  = AmountField.RawNumber (Fin (12505 # 10))
  /\ AmountField.rawAmount
       (AmountField.handleAmountChange (str "1.2.3") (AmountField.initialState None))
     = AmountField.RawEmpty
  /\ AmountField.rawAmount
       (AmountField.handleAmountChange (str ".") (AmountField.initialState None))
     = AmountField.RawEmpty
  /\ AmountField.rawAmount
       (AmountField.handleAmountChange (str "-5") (AmountField.initialState None))
     = AmountField.RawNumber (Fin 5).
Proof. repeat split. Qed.

(** X6.  After a change of the amount field, the field holds a number
    exactly when the typed text, without everything but digits and points,
    has at most one point and at least one digit. *)
Theorem X6_amount_field_holds_a_number_iff
    (value : jsstring) (st : AmountField.State) :
  let cleaned := AmountField.cleanValue value in
  (exists n, AmountField.rawAmount (AmountField.handleAmountChange value st)
             = AmountField.RawNumber n)
  <-> (count_occ N.eq_dec cleaned AmountField.dot <= 1)%nat
      /\ existsb isDigit cleaned = true.
Proof.
  cbv zeta. pose proof (cleanValue_keeps value) as Hk.
  unfold AmountField.handleAmountChange.
  destruct (AmountField.cleanValue value) as [|c r] eqn:E.
  - split; [intros [n H]; discriminate|intros [_ H]; discriminate].
  - cbv zeta.
    assert (Hc : AmountField.keeps c = true) by now inversion Hk.
    rewrite (parseFloat_kept c r Hc).
    destruct (kept_shape (c :: r) Hk)
      as [Hd|[(d1 & d2 & Hs & H1 & H2)|(d1 & d2 & r' & Hs & H1 & H2)]].
    + rewrite (parse_digits c r Hd), (pattern_digits _ Hd).
      cbn [isNaN negb andb AmountField.rawAmount].
      split; [intros _|intros _; eexists; reflexivity].
      rewrite (digits_no_point _ Hd). split; [lia|].
      inversion Hd as [|? ? Hcd _]; subst. cbn [existsb]. now rewrite Hcd.
    + rewrite Hs, (parse_point d1 d2 H1 H2), (pattern_point d1 d2 H1 H2).
      rewrite count_occ_app, count_occ_cons_eq by reflexivity.
      rewrite (digits_no_point _ H1), (digits_no_point _ H2).
      rewrite existsb_app. cbn [existsb].
      change (isDigit AmountField.dot) with false. cbn [orb].
      destruct d1 as [|a d1], d2 as [|b d2];
        cbn [isNaN negb andb AmountField.rawAmount existsb orb].
      * split; [intros [n H]; discriminate|intros [_ H]; discriminate].
      * inversion H2 as [|? ? Hb _]; subst. rewrite Hb.
        split; [intros _; split; [lia|reflexivity]|intros _; eexists; reflexivity].
      * inversion H1 as [|? ? Ha _]; subst. rewrite Ha.
        split; [intros _; split; [lia|reflexivity]|intros _; eexists; reflexivity].
      * inversion H1 as [|? ? Ha _]; subst. rewrite Ha.
        split; [intros _; split; [lia|reflexivity]|intros _; eexists; reflexivity].
    + rewrite Hs, (pattern_two_points d1 d2 r' H1 H2).
      rewrite andb_false_r. cbn [AmountField.rawAmount].
      split; [intros [n H]; discriminate|].
      intros [Hcount _]. exfalso.
      rewrite count_occ_app, count_occ_cons_eq in Hcount by reflexivity.
      rewrite count_occ_app, count_occ_cons_eq in Hcount by reflexivity.
      lia.
Qed.

Lemma X6_witness :
  exists n,
    AmountField.rawAmount
      (AmountField.handleAmountChange (str "Rs 1,250.5")
                                      (AmountField.initialState None))
    = AmountField.RawNumber n.
Proof.
  apply (proj2 (X6_amount_field_holds_a_number_iff
                  (str "Rs 1,250.5") (AmountField.initialState None))).
  split; [vm_compute; lia|reflexivity].
Defined.

Module RoundTripFacts.

Import AmountField.

Lemma groupIndian_elements (ds : jsstring) (c : N) :
  Forall (fun c => isDigit c = true) ds ->
  In c (groupIndian ds) -> c = comma \/ isDigit c = true.
Proof.
  intros Hd Hin. unfold groupIndian in Hin. apply in_rev in Hin.
  apply In_nth_error in Hin as [i Hi].
  assert (Hr : Forall (fun c => isDigit c = true) (rev ds)).
  { apply Forall_forall. intros x Hx. apply in_rev in Hx.
    rewrite Forall_forall in Hd. now apply Hd. }
  pose proof (groupReversed_nth _ Hr i c Hi) as H.
  destruct ((3 <=? i)%nat && (i mod 3 =? 0)%nat); [now left|now right].
Qed.

Lemma keeps_as_notComma (l : jsstring) :
  (forall c, In c l -> c = comma \/ isDigit c = true) ->
  filter keeps l = filter notComma l.
Proof.
  induction l as [|c l IH]; intros H; [reflexivity|].
  cbn [filter]. rewrite IH by (intros x Hx; apply H; now right).
  destruct (H c (or_introl eq_refl)) as [->|Hc].
  - reflexivity.
  - now rewrite (digit_keeps c Hc), (digit_notComma c Hc).
Qed.

Lemma keeps_digits (l : jsstring) :
  Forall (fun c => isDigit c = true) l -> filter keeps l = l.
Proof.
  induction 1 as [|c l Hc _ IH]; [reflexivity|].
  cbn [filter]. now rewrite (digit_keeps c Hc), IH.
Qed.

(** What is left of a formatted amount once everything but digits and
    points is removed. *)
Lemma cleanValue_formatINR (q : Q) :
  cleanValue (formatINR (Fin q))
  = decimalDigits (hundredths q / 100)
    ++ dot :: [(48 + Z.to_N (hundredths q mod 100 / 10))%N;
               (48 + Z.to_N (hundredths q mod 10))%N].
Proof.
  destruct (hundredths_nearest q) as [Hh _].
  unfold cleanValue. cbn [formatINR]. set (h := hundredths q) in *.
  pose proof (decimalDigits_digits (h / 100)) as Hd.
  rewrite filter_app.
  assert (Hsign : forall b, filter keeps (signPrefix b) = []).
  { intros []; reflexivity. }
  rewrite Hsign. cbn [app filter].
  change (keeps rupeeSign) with false. cbv iota.
  rewrite filter_app.
  rewrite (keeps_as_notComma _ (fun c => groupIndian_elements _ c Hd)).
  rewrite (groupIndian_notComma _ Hd). f_equal.
  change (filter keeps
            (str "." ++ [(48 + Z.to_N (h mod 100 / 10))%N;
                         (48 + Z.to_N (h mod 10))%N]))
    with (dot :: filter keeps [(48 + Z.to_N (h mod 100 / 10))%N;
                               (48 + Z.to_N (h mod 10))%N]).
  f_equal. apply keeps_digits.
  repeat constructor; apply isDigit_range; lia.
Qed.

Lemma digitsValue_app (ds es : jsstring) :
  digitsValue (ds ++ es) = fold_left digitStep es (digitsValue ds).
Proof. unfold digitsValue. apply fold_left_app. Qed.

End RoundTripFacts.

Import RoundTripFacts.

Example blur_then_retype :
  let st := AmountField.mkState (AmountField.RawNumber (Fin (12345 # 10)))
                                (VStr (str "1234.5")) in
  let blurred := AmountField.handleAmountBlur st in
  AmountField.displayAmount blurred = VStr (rupeeSign :: str "1,234.50")
  /\ AmountField.handleAmountChange (rupeeSign :: str "1,234.50") blurred
     = AmountField.mkState (AmountField.RawNumber (Fin (123450 # 100)))
                           (VStr (str "1234.50")).
Proof. split; reflexivity. Qed.

(** X7.  Leaving the amount field formats the finite number it holds; a
    change event on the formatted text does not empty the field: the
    field then holds a number that is neither NaN nor negative, and it
    shows the text without the rupee sign and the commas, that is, digits,
    a point and two digits. *)
Theorem X7_formatted_amount_reads_back_as_a_number
    (st : AmountField.State) (q : Q) :
  AmountField.rawAmount st = AmountField.RawNumber (Fin q) ->
  let blurred := AmountField.handleAmountBlur st in
  exists shown integerDigits f1 f2 n,
    AmountField.displayAmount blurred = VStr shown
    /\ AmountField.handleAmountChange shown blurred
       = AmountField.mkState
           (AmountField.RawNumber n)
           (VStr (integerDigits ++ AmountField.dot :: [f1; f2]))
    /\ integerDigits <> []
    /\ Forall (fun c => isDigit c = true) integerDigits
    /\ isDigit f1 = true /\ isDigit f2 = true
    /\ isNaN n = false /\ Dashboard.lt0 n = false.
Proof.
  intros Hraw. cbv zeta.
  unfold AmountField.handleAmountBlur. rewrite Hraw.
  cbn [isNaN negb AmountField.displayAmount].
  change (formatRupee (VNum (Fin q))) with (VStr (formatINR (Fin q))).
  destruct (hundredths_nearest q) as [Hh _].
  set (h := hundredths q) in *.
  set (f1 := (48 + Z.to_N (h mod 100 / 10))%N).
  set (f2 := (48 + Z.to_N (h mod 10))%N).
  pose proof (decimalDigits_digits (h / 100)) as Hd.
  assert (Hf : Forall (fun c => isDigit c = true) [f1; f2]).
  { repeat constructor; apply isDigit_range; unfold f1, f2; lia. }
  destruct (decimalDigits (h / 100)) as [|c ds] eqn:E.
  { pose proof (decimalDigits_hd (h / 100) comma) as Hhd.
    rewrite E in Hhd. discriminate. }
  exists (formatINR (Fin q)), (c :: ds), f1, f2,
         (Fin (decimalValue (c :: ds) [f1; f2] 0)).
  split; [reflexivity|]. split.
  - unfold AmountField.handleAmountChange.
    rewrite (cleanValue_formatINR q). fold h f1 f2. rewrite E.
    cbn [app]. cbv zeta.
    rewrite parseFloat_kept
      by (apply digit_keeps; now inversion Hd).
    change (c :: ds ++ AmountField.dot :: [f1; f2])
      with ((c :: ds) ++ AmountField.dot :: [f1; f2]).
    rewrite (parse_point (c :: ds) [f1; f2] Hd Hf).
    rewrite (pattern_point (c :: ds) [f1; f2] Hd Hf).
    reflexivity.
  - split; [discriminate|]. split; [exact Hd|].
    inversion Hf as [|? ? Hf1 Hf']; subst.
    inversion Hf' as [|? ? Hf2 _]; subst.
    split; [exact Hf1|]. split; [exact Hf2|]. split; [reflexivity|].
    cbn [Dashboard.lt0].
    pose proof (decimalValue_nonneg (c :: ds) [f1; f2] 0) as Hnn.
    destruct (decimalValue (c :: ds) [f1; f2] 0 ?= 0)%Q eqn:Ec;
      try reflexivity.
    apply Qlt_alt in Ec. lra.
Qed.

Lemma X7_witness :
  exists shown integerDigits f1 f2 n,
    AmountField.displayAmount
      (AmountField.handleAmountBlur
         (AmountField.mkState (AmountField.RawNumber (Fin (12345 # 10)))
                              (VStr (str "1234.5"))))
    = VStr shown
    /\ AmountField.handleAmountChange shown
         (AmountField.handleAmountBlur
            (AmountField.mkState (AmountField.RawNumber (Fin (12345 # 10)))
                                 (VStr (str "1234.5"))))
       = AmountField.mkState
           (AmountField.RawNumber n)
           (VStr (integerDigits ++ AmountField.dot :: [f1; f2]))
    /\ isNaN n = false.
Proof.
  destruct (X7_formatted_amount_reads_back_as_a_number
              (AmountField.mkState (AmountField.RawNumber (Fin (12345 # 10)))
                                   (VStr (str "1234.5")))
              (12345 # 10) eq_refl)
    as (shown & ds & f1 & f2 & n & Hshown & Hchange & _ & _ & _ & _ & Hn & _).
  exists shown, ds, f1, f2, n. repeat split; assumption.
Defined.

(** ** From a form to the next snapshot *)

Module FlowFacts.

Lemma streq_refl (s : jsstring) : streq s s = true.
Proof. now apply streq_eq. Qed.

Lemma streq_neq (s t : jsstring) : s <> t -> streq s t = false.
Proof.
  intros H. destruct (streq s t) eqn:E; [|reflexivity].
  apply streq_eq in E. contradiction.
Qed.

(** A submission is accepted only past the two guards. *)
Lemma submit_accepted (env : Env) (cid cname : jsstring)
    (initial : option Transaction) (rawAmount : value)
    (ty desc : jsstring) (d : Z) (w : World) :
  snd (TransactionForm.handleSubmit env cid cname initial rawAmount ty desc d w)
  = true ->
  gt0 (parseFloat rawAmount) = true /\ ready env = true
  /\ settle env = Resolved.
Proof.
  unfold TransactionForm.handleSubmit. cbv zeta.
  destruct (isNaN (parseFloat rawAmount) || le0 (parseFloat rawAmount)) eqn:G;
    [discriminate|].
  destruct (ready env); cbn [negb]; [|discriminate].
  assert (Hgt : gt0 (parseFloat rawAmount) = true).
  { destruct (gt0 (parseFloat rawAmount)) eqn:E; [reflexivity|].
    apply not_gt0 in E. congruence. }
  destruct initial as [edited|].
  - unfold updateTransaction. destruct (settle env); [|discriminate].
    now intros _.
  - unfold addTransaction. destruct (settle env); [|discriminate].
    now intros _.
Qed.

End FlowFacts.

Import FlowFacts.

(** X8.  When the submission of a new transaction is accepted, the
    documents of its contact are the former ones and one new document,
    which has the id the store chose, the direction of the form and the
    parsed amount, an amount greater than 0.  The documents of every other
    contact, and the contacts themselves, are as before. *)
Theorem X8_recorded_transaction_adds_one_document_to_its_contact
    (env : Env) (cid cname : jsstring) (rawAmount : value)
    (ty desc : jsstring) (d : Z) (w : World) :
  snd (TransactionForm.handleSubmit env cid cname None rawAmount ty desc d w)
  = true ->
  let w' :=
    fst (TransactionForm.handleSubmit env cid cname None rawAmount ty desc d w) in
  (exists t,
      Permutation (query (store w') cid) (t :: query (store w) cid)
      /\ id t = freshId env /\ type t = ty /\ date t = Some d
      /\ amount t = parseFloat rawAmount /\ gt0 (amount t) = true)
  /\ (forall other, other <> cid ->
        query (store w') other = query (store w) other)
  /\ customers_suppliers (store w') = customers_suppliers (store w).
Proof.
  intros Hok. destruct (submit_accepted _ _ _ _ _ _ _ _ _ Hok) as (Hgt & Hr & Hs).
  cbv zeta. clear Hok.
  unfold TransactionForm.handleSubmit. cbv zeta.
  assert (G : isNaN (parseFloat rawAmount) || le0 (parseFloat rawAmount) = false).
  { destruct (isNaN (parseFloat rawAmount) || le0 (parseFloat rawAmount)) eqn:E;
      [|reflexivity].
    apply not_gt0 in E. congruence. }
  rewrite G, Hr, Hs. cbn [negb addTransaction fst store issue showMessageBox].
  set (t := withCreatedAt (freshId env) _ _).
  assert (Hq : query (mkStore (customers_suppliers (store w))
                              (transactions (store w) ++ [t])) cid
               = query (store w) cid ++ [t]).
  { unfold query. cbn [transactions]. rewrite filter_app. cbn [filter].
    change (customerSupplierId t) with cid. now rewrite streq_refl. }
  split; [|split].
  - exists t. rewrite Hq. split.
    + symmetry. apply Permutation_cons_append.
    + repeat split. exact Hgt.
  - intros other Hne. unfold query. cbn [transactions].
    rewrite filter_app. cbn [filter].
    change (customerSupplierId t) with cid.
    rewrite (streq_neq cid other) by congruence. apply app_nil_r.
  - reflexivity.
Qed.

Lemma X8_witness :
  exists t,
    Permutation
      (query
         (store
            (fst (TransactionForm.handleSubmit Sample.online (str "c1")
                    (str "Asha") None (VNum (Fin 120)) (str "credit")
                    (str "chain") 1700259200000 Sample.world0)))
         (str "c1"))
      (t :: query Sample.store0 (str "c1"))
    /\ amount t = Fin 120.
Proof.
  destruct (X8_recorded_transaction_adds_one_document_to_its_contact
              Sample.online (str "c1") (str "Asha") (VNum (Fin 120))
              (str "credit") (str "chain") 1700259200000 Sample.world0 eq_refl)
    as ((t & Hp & _ & _ & _ & Ha & _) & _).
  exists t. split; [exact Hp|exact Ha].
Defined.

Module DeletionFacts.

Lemma filter_other_ids (tid : jsstring) (l : list Transaction) :
  (forall u, In u l -> id u <> tid) ->
  filter (fun t => negb (streq (id t) tid)) l = l.
Proof.
  induction l as [|u l IH]; intros H; [reflexivity|].
  cbn [filter]. rewrite (streq_neq (id u) tid) by (apply H; now left).
  cbn [negb]. rewrite IH; [reflexivity|].
  intros v Hv. apply H. now right.
Qed.

Lemma onConfirm_unfold (env : Env) (tid : jsstring) (w : World) :
  store (Deletion.onConfirm env tid w)
  = snd (Deletion.deleteTransaction (settle env) tid (store w))
  /\ calls (Deletion.onConfirm env tid w)
     = calls w ++ [DeleteDoc (str "transactions") tid]
  /\ messageBox (Deletion.onConfirm env tid w)
     = Some (match settle env with
             | Resolved => (str "Transaction deleted successfully!",
                            str "success")
             | Rejected e => (str "Failed to delete transaction: " ++ e,
                              str "error")
             end)
  /\ console (Deletion.onConfirm env tid w)
     = match settle env with
       | Resolved => console w
       | Rejected e => console w ++ [(str "Error deleting transaction:", e)]
       end.
Proof.
  unfold Deletion.onConfirm, Deletion.deleteTransaction.
  destruct (settle env); repeat split.
Qed.

End DeletionFacts.

Import DeletionFacts.

(** X9.  Asking to delete a transaction touches neither the store nor the
    trace of calls.  Once the deletion is confirmed and accepted, the
    transaction is gone and every other document is where it was, as if
    the transaction had never existed: the documents of its contact are
    the former ones without it, and the documents of the other contacts
    and the contacts are unchanged. *)
Theorem X9_confirmed_deletion_removes_exactly_the_transaction
    (env : Env) (tid : jsstring) (w : World)
    (before after : list Transaction) (t : Transaction) :
  settle env = Resolved ->
  transactions (store w) = before ++ t :: after ->
  id t = tid ->
  (forall u, In u (before ++ after) -> id u <> tid) ->
  let asked := Deletion.handleDeleteTransaction tid w in
  let w' := Deletion.onConfirm env tid asked in
  store asked = store w /\ calls asked = calls w
  /\ transactions (store w') = before ++ after
  /\ customers_suppliers (store w') = customers_suppliers (store w)
  /\ query (store w') (customerSupplierId t)
     = filter (fun u => streq (customerSupplierId u) (customerSupplierId t))
              (before ++ after)
  /\ (forall other, other <> customerSupplierId t ->
        query (store w') other = query (store w) other)
  /\ messageBox w'
     = Some (str "Transaction deleted successfully!", str "success").
Proof.
  intros Hs Htx Hid Hothers. cbv zeta.
  destruct (onConfirm_unfold env tid (Deletion.handleDeleteTransaction tid w))
    as (Hstore & _ & Hbox & _).
  rewrite Hs in *. cbn [Deletion.deleteTransaction snd] in Hstore.
  change (store (Deletion.handleDeleteTransaction tid w)) with (store w)
    in Hstore.
  assert (Hleft : transactions (store (Deletion.onConfirm env tid
                                 (Deletion.handleDeleteTransaction tid w)))
                  = before ++ after).
  { rewrite Hstore. cbn [transactions]. rewrite Htx, filter_app.
    cbn [filter]. rewrite Hid, streq_refl. cbn [negb].
    rewrite <- filter_app. now apply filter_other_ids. }
  split; [reflexivity|]. split; [reflexivity|].
  split; [exact Hleft|]. split; [now rewrite Hstore|].
  split; [|split; [|exact Hbox]].
  - unfold query. now rewrite Hleft.
  - intros other Hne. unfold query. rewrite Hleft, Htx, !filter_app.
    cbn [filter]. now rewrite (streq_neq (customerSupplierId t) other).
Qed.

Lemma X9_witness :
  transactions
    (store (Deletion.onConfirm Sample.online (str "t2")
              (Deletion.handleDeleteTransaction (str "t2") Sample.world0)))
  = [Sample.gave500; Sample.other50].
Proof.
  apply (X9_confirmed_deletion_removes_exactly_the_transaction
           Sample.online (str "t2") Sample.world0
           [Sample.gave500] [Sample.other50] Sample.got200).
  - reflexivity.
  - reflexivity.
  - reflexivity.
  - intros u [<-|[<-|[]]]; discriminate.
Defined.

(** ** What every run of the handlers preserves *)

Module InvariantFacts.

Lemma trimStart_hd (s : jsstring) (c : N) (r : jsstring) :
  trimStart s = c :: r -> isWhiteSpace c = false.
Proof.
  induction s as [|a s IH]; cbn [trimStart]; [discriminate|].
  destruct (isWhiteSpace a) eqn:E; [exact IH|].
  intros H. injection H as <- _. exact E.
Qed.

Lemma trimStart_last (s : jsstring) (d : N) :
  trimStart s <> [] -> last (trimStart s) d = last s d.
Proof.
  induction s as [|a s IH]; cbn [trimStart]; [congruence|].
  destruct (isWhiteSpace a); [|reflexivity].
  intros H. rewrite (IH H).
  destruct s as [|b s]; [now cbn [trimStart] in H|reflexivity].
Qed.

Lemma last_rev {A : Type} (l : list A) (d : A) : last (rev l) d = hd d l.
Proof. rewrite <- (rev_involutive l) at 2. symmetry. apply hd_rev. Qed.

Lemma rev_nil_inv {A : Type} (l : list A) : rev l = [] -> l = [].
Proof.
  intros H. apply (f_equal (@rev A)) in H. now rewrite rev_involutive in H.
Qed.

(** What [trim] returns, when it is not empty, begins and ends with a
    code unit that is not white space. *)
Lemma trim_trimmed (s : jsstring) : trim s <> [] -> App.trimmed (trim s).
Proof.
  intros Hne. split; [exact Hne|]. unfold trim, trimEnd in *.
  set (u := trimStart s) in *.
  assert (Hinner : trimStart (rev u) <> []).
  { intros E. apply Hne. now rewrite E. }
  split.
  - rewrite hd_rev, (trimStart_last _ _ Hinner), last_rev.
    destruct u as [|c r] eqn:E; [now cbn in Hinner|].
    cbn [hd]. apply (trimStart_hd s c r). exact E.
  - rewrite last_rev.
    destruct (trimStart (rev u)) as [|c r] eqn:E; [congruence|].
    cbn [hd]. apply (trimStart_hd (rev u) c r). exact E.
Qed.

Lemma store_issue (c : call) (s : Store) (w : World) : store (issue c s w) = s.
Proof. reflexivity. Qed.

(** Every handler changes the store in one of the listed ways. *)
Lemma step_change (w w' : World) :
  App.step w w' -> App.change (store w) (store w').
Proof.
  intros [env cid docs st|message st|message st|env name mobile address
         |env cid cname initial rawAmount ty desc d|tid|env tid].
  - rewrite onNext_unfold. cbv zeta.
    assert (Hs : forall r : outcome * Store,
               store
                 (match fst r with
                  | Resolved =>
                      issue (UpdateDoc (str "customers_suppliers") cid) (snd r) w
                  | Rejected e =>
                      consoleError
                        (str "Error updating customer/supplier balance:") e
                        (issue (UpdateDoc (str "customers_suppliers") cid)
                               (snd r) w)
                  end) = snd r).
    { intros [[|e] s']; reflexivity. }
    cbn [fst]. rewrite Hs. unfold updateBalance.
    destruct (settle env); [|constructor].
    destruct (hasContact (store w) cid); cbn [snd]; constructor.
  - constructor.
  - constructor.
  - unfold AddCustomer.handleSubmit.
    destruct (trim name) as [|c r] eqn:E; [constructor|].
    destruct (ready env); cbn [negb]; [|constructor].
    unfold addContact. destruct (settle env); cbn [fst store showMessageBox];
      [|constructor].
    rewrite store_issue. apply App.contact_added. split; [|reflexivity].
    cbn [cs_name]. rewrite <- E. apply trim_trimmed. congruence.
  - unfold TransactionForm.handleSubmit. cbv zeta.
    destruct (isNaN (parseFloat rawAmount) || le0 (parseFloat rawAmount)) eqn:G;
      [constructor|].
    assert (Hgt : gt0 (parseFloat rawAmount) = true).
    { destruct (gt0 (parseFloat rawAmount)) eqn:E; [reflexivity|].
      apply not_gt0 in E. congruence. }
    destruct (ready env); cbn [negb]; [|constructor].
    destruct initial as [edited|].
    + unfold updateTransaction. destruct (settle env); [|constructor].
      destruct (hasTransaction (store w) (id edited));
        cbn [fst store showMessageBox consoleError]; rewrite store_issue;
        [|constructor].
      apply (App.transaction_edited (store w) (id edited)
               (mkTransaction [] cid (parseFloat rawAmount) ty (trim desc)
                              (Some d) (Some (now env 0%nat)) None)).
      repeat split; [exact Hgt|discriminate|discriminate].
    + unfold addTransaction. destruct (settle env);
        cbn [fst store showMessageBox consoleError]; rewrite store_issue;
        [|constructor].
      apply App.transaction_added.
      repeat split; [exact Hgt|discriminate|discriminate].
  - constructor.
  - destruct (onConfirm_unfold env tid w) as (-> & _).
    unfold Deletion.deleteTransaction.
    destruct (settle env); cbn [snd]; constructor.
Qed.

Lemma change_transactions (s s' : Store) :
  App.change s s' ->
  Forall App.validTransaction (transactions s) ->
  Forall App.validTransaction (transactions s').
Proof.
  intros [|cid b|c Hc|t Ht|tid data Hd|tid] H; cbn [transactions]; auto.
  - apply Forall_app. split; [exact H|now constructor].
  - apply Forall_forall. intros t Hin.
    apply in_map_iff in Hin as (t0 & <- & Hin).
    rewrite Forall_forall in H.
    destruct (streq (id t0) tid); [exact Hd|now apply H].
  - apply Forall_forall. intros t Hin. apply filter_In in Hin as [Hin _].
    rewrite Forall_forall in H. now apply H.
Qed.

Lemma change_contacts (s s' : Store) :
  App.change s s' ->
  Forall App.validContact (customers_suppliers s) ->
  Forall App.validContact (customers_suppliers s').
Proof.
  intros [|cid b|c Hc|t Ht|tid data Hd|tid] H; cbn [customers_suppliers];
    auto.
  - apply Forall_forall. intros c Hin.
    apply in_map_iff in Hin as (c0 & <- & Hin).
    rewrite Forall_forall in H. specialize (H c0 Hin).
    destruct (streq (cs_id c0) cid); exact H.
  - apply Forall_app. split; [exact H|now constructor].
Qed.

Lemma change_identity (s s' : Store) :
  App.change s s' ->
  exists added,
    map App.identity (customers_suppliers s')
    = map App.identity (customers_suppliers s) ++ map App.identity added.
Proof.
  intros [|cid b|c Hc|t Ht|tid data Hd|tid]; cbn [customers_suppliers];
    try (exists []; now rewrite app_nil_r).
  - exists []. rewrite app_nil_r, map_map. apply map_ext. intros c.
    destruct (streq (cs_id c) cid); reflexivity.
  - exists [c]. apply map_app.
Qed.

Lemma customerQuery_all (s : Store) :
  Forall App.validContact (customers_suppliers s) ->
  Dashboard.customerQuery s = customers_suppliers s.
Proof.
  unfold Dashboard.customerQuery.
  induction 1 as [|c l [_ Hc] _ IH]; [reflexivity|].
  cbn [filter]. rewrite Hc, streq_refl. now rewrite IH.
Qed.

End InvariantFacts.

Import InvariantFacts.

(** X10.  Every transaction of the store has an amount greater than 0, a
    date and a last-update timestamp: if that holds of a store, it holds
    after any number of runs of the handlers, whatever is typed into the
    forms and whatever the store answers. *)
Theorem X10_stored_transactions_stay_valid (w w' : World) :
  App.steps w w' ->
  Forall App.validTransaction (transactions (store w)) ->
  Forall App.validTransaction (transactions (store w')).
Proof.
  induction 1 as [|w1 w2 _ IH Hstep]; intros H; [exact H|].
  apply (change_transactions (store w1)); [now apply step_change|auto].
Qed.

(** X11.  Every contact of the store has a name that is not empty and
    neither begins nor ends with white space, and the type 'customer': if
    that holds of a store, it holds after any number of runs of the
    handlers, and the query of the dashboard then lists every contact. *)
Theorem X11_stored_contacts_stay_valid (w w' : World) :
  App.steps w w' ->
  Forall App.validContact (customers_suppliers (store w)) ->
  Forall App.validContact (customers_suppliers (store w'))
  /\ Dashboard.customerQuery (store w') = customers_suppliers (store w').
Proof.
  intros Hsteps H.
  assert (Hv : Forall App.validContact (customers_suppliers (store w'))).
  { induction Hsteps as [|w1 w2 _ IH Hstep]; [exact H|].
    apply (change_contacts (store w1)); [now apply step_change|auto]. }
  split; [exact Hv|now apply customerQuery_all].
Qed.

(** X12.  No run of the handlers removes or renames a contact: after any
    number of runs, every contact that was there is still there with
    everything but the cached balance as it was, and whatever else is
    there has been added. *)
Theorem X12_contacts_are_only_added (w w' : World) :
  App.steps w w' ->
  exists added,
    Permutation
      (map App.identity (customers_suppliers (store w')))
      (map App.identity (customers_suppliers (store w))
         ++ map App.identity added).
Proof.
  induction 1 as [|w1 w2 _ [added IH] Hstep].
  - exists []. now rewrite app_nil_r.
  - destruct (change_identity _ _ (step_change _ _ Hstep)) as [added' H'].
    exists (added ++ added'). rewrite H', IH, map_app. now rewrite app_assoc.
Qed.

Lemma scenario_steps : App.steps Sample.world0 Scenario.afterDeletion.
Proof.
  apply (App.steps_step _ Scenario.afterSale).
  - apply (App.steps_step _ Scenario.afterCustomer).
    + apply (App.steps_step _ Sample.world0); [apply App.steps_refl|].
      apply App.step_add_customer.
    + apply App.step_submit_transaction.
  - apply App.step_delete_confirm.
Qed.

Lemma sample_store_valid :
  Forall App.validTransaction (transactions Sample.store0)
  /\ Forall App.validContact (customers_suppliers Sample.store0).
Proof.
  split; repeat constructor; discriminate.
Qed.

Lemma X10_witness :
  Forall App.validTransaction (transactions (store Scenario.afterDeletion)).
Proof.
  apply (X10_stored_transactions_stay_valid Sample.world0).
  - exact scenario_steps.
  - exact (proj1 sample_store_valid).
Defined.

Lemma X11_witness :
  Forall App.validContact (customers_suppliers (store Scenario.afterDeletion))
  /\ Dashboard.customerQuery (store Scenario.afterDeletion)
     = customers_suppliers (store Scenario.afterDeletion).
Proof.
  apply (X11_stored_contacts_stay_valid Sample.world0).
  - exact scenario_steps.
  - exact (proj2 sample_store_valid).
Defined.

Lemma X12_witness :
  exists added,
    Permutation
      (map App.identity (customers_suppliers (store Scenario.afterDeletion)))
      (map App.identity (customers_suppliers Sample.store0)
         ++ map App.identity added).
Proof.
  exact (X12_contacts_are_only_added Sample.world0 Scenario.afterDeletion
           scenario_steps).
Defined.

Example scenario_store :
  map cs_name (customers_suppliers (store Scenario.afterDeletion))
  = [str "Asha"; str "Ravi"]
  /\ map id (transactions (store Scenario.afterDeletion))
     = [str "t2"; str "t3"; str "t9"].
Proof. split; reflexivity. Qed.

(** ** The dashboard *)

Module DashboardFacts.

Lemma includes_empty (s : jsstring) : Dashboard.includes s [] = true.
Proof. destruct s; reflexivity. Qed.

Lemma filter_all {A : Type} (p : A -> bool) (l : list A) :
  (forall a, In a l -> p a = true) -> filter p l = l.
Proof.
  induction l as [|a l IH]; intros H; [reflexivity|].
  cbn [filter]. rewrite (H a (or_introl eq_refl)), IH; [reflexivity|].
  intros b Hb. apply H. now right.
Qed.

Lemma formatINR_abs (q : Q) :
  exists rest, formatINR (Fin (Qabs q)) = rupeeSign :: rest.
Proof.
  cbn [formatINR].
  assert (H : Qle_bool 0 (Qabs q) = true)
    by (apply Qle_bool_iff, Qabs_nonneg).
  rewrite H. cbn [negb signPrefix app]. eexists. reflexivity.
Qed.

End DashboardFacts.

Import DashboardFacts.

(** X13.  With an empty search text the dashboard lists every contact it
    was given, in the same order (the lower-case form of the empty string
    being the empty string). *)
Theorem X13_empty_search_lists_every_contact
    (toLowerCase : jsstring -> jsstring) (st : Dashboard.State) :
  toLowerCase [] = [] ->
  Dashboard.searchQuery st = [] ->
  Dashboard.filteredContacts toLowerCase st = Dashboard.customersSuppliers st.
Proof.
  intros Hlow Hq. unfold Dashboard.filteredContacts. rewrite Hq.
  apply filter_all. intros cs _. unfold Dashboard.matchesSearch.
  rewrite Hlow, includes_empty. reflexivity.
Qed.

Lemma X13_witness :
  Dashboard.filteredContacts asciiLowerCase
    (Dashboard.mkState (customers_suppliers (store Scenario.afterDeletion))
                       false [])
  = customers_suppliers (store Scenario.afterDeletion).
Proof.
  apply (X13_empty_search_lists_every_contact asciiLowerCase
           (Dashboard.mkState (customers_suppliers (store Scenario.afterDeletion))
                              false []));
    reflexivity.
Defined.

Example search_by_name_and_mobile :
  map cs_name
    (Dashboard.filteredContacts asciiLowerCase
       (Dashboard.mkState (customers_suppliers (store Scenario.afterDeletion))
                          false (str "RAV")))
  = [str "Ravi"]
  /\ map cs_name
       (Dashboard.filteredContacts asciiLowerCase
          (Dashboard.mkState (customers_suppliers (store Scenario.afterDeletion))
                             false (str "98765")))
     = [str "Asha"].
Proof. split; reflexivity. Qed.

(** X14.  The amount in a contact's row of the dashboard is always a
    string that begins with the rupee sign, whatever the cached balance:
    the sign of the balance is dropped, and a balance that is NaN is shown
    as "₹0.00". *)
Theorem X14_dashboard_amount_has_no_sign (cs : Contact) :
  exists rest,
    Dashboard.balanceText cs = VStr (rupeeSign :: rest)
    /\ (cs_balance cs = NaN -> rest = str "0.00").
Proof.
  unfold Dashboard.balanceText.
  destruct (cs_balance cs) as [|a|q]; cbn [Dashboard.orZero Dashboard.abs].
  - exists (str "0.00"). split; reflexivity.
  - exists [infinitySign]. split; [reflexivity|discriminate].
  - assert (H : forall x, exists rest,
                 formatRupee (VNum (Fin (Qabs x))) = VStr (rupeeSign :: rest)).
    { intros x. destruct (formatINR_abs x) as [rest Hrest].
      exists rest. unfold formatRupee. cbn [parseFloat isNaN].
      now rewrite Hrest. }
    destruct (Qeq_bool q 0); cbn [Dashboard.abs];
      [destruct (H 0%Q) as [rest Hr]|destruct (H q) as [rest Hr]];
      exists rest; (split; [exact Hr|discriminate]).
Qed.

Example dashboard_amounts :
  Dashboard.balanceText
    (mkContact (str "c1") (str "Asha") [] [] (str "customer") (Fin (-300)) 0)
  = VStr (rupeeSign :: str "300.00")
  /\ Dashboard.balanceLabel
       (mkContact (str "c1") (str "Asha") [] [] (str "customer") (Fin (-300)) 0)
     = str "You Owe".
Proof. split; reflexivity. Qed.

(** ** Editing, and writes the store rejects *)

Module EditFacts.

Lemma map_other_ids (tid : jsstring) (f : Transaction -> Transaction)
    (l : list Transaction) :
  (forall u, In u l -> id u <> tid) ->
  map (fun t => if streq (id t) tid then f t else t) l = l.
Proof.
  induction l as [|u l IH]; intros H; [reflexivity|].
  cbn [map]. rewrite (streq_neq (id u) tid) by (apply H; now left).
  rewrite IH; [reflexivity|]. intros v Hv. apply H. now right.
Qed.

Lemma hasTransaction_middle (s : Store) (before after : list Transaction)
    (t : Transaction) :
  transactions s = before ++ t :: after -> hasTransaction s (id t) = true.
Proof.
  intros H. unfold hasTransaction. rewrite H, existsb_app. cbn [existsb].
  rewrite streq_refl. now rewrite orb_true_r.
Qed.

End EditFacts.

Import EditFacts.

(** X15.  When the submission of an edit is accepted, the edited document
    stays where it was in the store with its id and its creation
    timestamp, takes the amount, direction and date of the form and the
    time of the submission as its last update, and no other document or
    contact changes. *)
Theorem X15_accepted_edit_replaces_one_document
    (env : Env) (cid cname : jsstring) (edited : Transaction)
    (rawAmount : value) (ty desc : jsstring) (d : Z) (w : World)
    (before after : list Transaction) :
  snd (TransactionForm.handleSubmit env cid cname (Some edited) rawAmount
         ty desc d w) = true ->
  transactions (store w) = before ++ edited :: after ->
  (forall u, In u (before ++ after) -> id u <> id edited) ->
  customerSupplierId edited = cid ->
  let w' :=
    fst (TransactionForm.handleSubmit env cid cname (Some edited) rawAmount
           ty desc d w) in
  exists t',
    transactions (store w') = before ++ t' :: after
    /\ id t' = id edited /\ createdAt t' = createdAt edited
    /\ customerSupplierId t' = cid
    /\ amount t' = parseFloat rawAmount /\ gt0 (amount t') = true
    /\ type t' = ty /\ date t' = Some d
    /\ updatedAt t' = Some (now env 0%nat)
    /\ customers_suppliers (store w') = customers_suppliers (store w).
Proof.
  intros Hok Htx Hothers Hcid.
  destruct (submit_accepted _ _ _ _ _ _ _ _ _ Hok) as (Hgt & Hr & Hs).
  cbv zeta. clear Hok.
  unfold TransactionForm.handleSubmit. cbv zeta.
  assert (G : isNaN (parseFloat rawAmount) || le0 (parseFloat rawAmount) = false).
  { destruct (isNaN (parseFloat rawAmount) || le0 (parseFloat rawAmount)) eqn:E;
      [|reflexivity].
    apply not_gt0 in E. congruence. }
  rewrite G, Hr, Hs. cbn [negb]. unfold updateTransaction.
  rewrite (hasTransaction_middle _ _ _ _ Htx).
  cbn [fst store issue showMessageBox transactions].
  rewrite Htx, map_app. cbn [map]. rewrite streq_refl.
  assert (Hb : forall u, In u before -> id u <> id edited)
    by (intros u Hu; apply Hothers, in_or_app; now left).
  assert (Ha : forall u, In u after -> id u <> id edited)
    by (intros u Hu; apply Hothers, in_or_app; now right).
  rewrite (map_other_ids (id edited) _ before Hb).
  rewrite (map_other_ids (id edited) _ after Ha).
  eexists. split; [reflexivity|].
  cbn [id createdAt customerSupplierId amount type date updatedAt
       customers_suppliers].
  repeat split. exact Hgt.
Qed.

Lemma X15_witness :
  exists t',
    transactions
      (store (fst (TransactionForm.handleSubmit Sample.online (str "c1")
                     (str "Asha") (Some Sample.got200) (VNum (Fin 250))
                     (str "debit") (str "cash") 1700086400000 Sample.world0)))
    = [Sample.gave500] ++ t' :: [Sample.other50]
    /\ id t' = str "t2" /\ createdAt t' = Some 1700086400700
    /\ amount t' = Fin 250.
Proof.
  destruct (X15_accepted_edit_replaces_one_document
              Sample.online (str "c1") (str "Asha") Sample.got200
              (VNum (Fin 250)) (str "debit") (str "cash") 1700086400000
              Sample.world0 [Sample.gave500] [Sample.other50]
              eq_refl eq_refl)
    as (t' & Htx & Hid & Hcreated & _ & Hamount & _).
  - intros u [<-|[<-|[]]]; discriminate.
  - reflexivity.
  - exists t'. repeat split; assumption.
Defined.

(** X16.  A write that the store rejects after the form's own checks have
    passed is reported to the user: the message box shows the failure with
    the error's message, the error is logged, the form is not left
    ([onSave] is not called) and the store is as it was.  This holds for
    adding a customer, for recording or editing a transaction and for a
    confirmed deletion. *)
Theorem X16_rejected_writes_are_reported
    (env : Env) (w : World) (e : jsstring)
    (name mobile address : jsstring)
    (cid cname : jsstring) (initial : option Transaction)
    (rawAmount : value) (ty desc : jsstring) (d : Z)
    (tid : jsstring) :
  settle env = Rejected e ->
  ready env = true ->
  (trim name <> [] ->
   let r := AddCustomer.handleSubmit env name mobile address w in
   messageBox (fst r) = Some (str "Failed to add contact: " ++ e, str "error")
   /\ console (fst r) = console w ++ [(str "Error adding customer:", e)]
   /\ store (fst r) = store w /\ snd r = false)
  /\ (gt0 (parseFloat rawAmount) = true ->
      let r := TransactionForm.handleSubmit env cid cname initial rawAmount
                 ty desc d w in
      messageBox (fst r)
      = Some (str "Failed to save transaction: " ++ e, str "error")
      /\ console (fst r) = console w ++ [(str "Error saving transaction:", e)]
      /\ store (fst r) = store w /\ snd r = false)
  /\ (let w' := Deletion.onConfirm env tid w in
      messageBox w'
      = Some (str "Failed to delete transaction: " ++ e, str "error")
      /\ console w' = console w ++ [(str "Error deleting transaction:", e)]
      /\ store w' = store w).
Proof.
  intros Hs Hr. split; [|split].
  - intros Hname. unfold AddCustomer.handleSubmit.
    destruct (trim name) as [|c r]; [congruence|].
    rewrite Hr, Hs. repeat split.
  - intros Hgt. unfold TransactionForm.handleSubmit. cbv zeta.
    assert (G : isNaN (parseFloat rawAmount) || le0 (parseFloat rawAmount)
                = false).
    { destruct (isNaN (parseFloat rawAmount) || le0 (parseFloat rawAmount))
        eqn:E; [|reflexivity].
      apply not_gt0 in E. congruence. }
    rewrite G, Hr. cbn [negb]. destruct initial as [edited|].
    + unfold updateTransaction. rewrite Hs. repeat split.
    + unfold addTransaction. rewrite Hs. repeat split.
  - cbv zeta. destruct (onConfirm_unfold env tid w) as (H1 & _ & H3 & H4).
    rewrite H1, H3, H4, Hs. repeat split.
Qed.

Lemma X16_witness :
  messageBox
    (fst (AddCustomer.handleSubmit Sample.offline (str "Ravi") [] []
            Sample.world0))
  = Some (str "Failed to add contact: unavailable", str "error")
  /\ store
       (fst (TransactionForm.handleSubmit Sample.offline (str "c1") (str "Asha")
               None (VNum (Fin 120)) (str "credit") [] 1700259200000
               Sample.world0))
     = Sample.store0
  /\ store (Deletion.onConfirm Sample.offline (str "t1") Sample.world0)
     = Sample.store0.
Proof.
  pose proof (X16_rejected_writes_are_reported
                Sample.offline Sample.world0 (str "unavailable")
                (str "Ravi") [] [] (str "c1") (str "Asha") None
                (VNum (Fin 120)) (str "credit") [] 1700259200000 (str "t1")
                eq_refl eq_refl) as (Hadd & Hsubmit & Hdelete).
  split; [|split].
  - apply Hadd. discriminate.
  - apply Hsubmit. reflexivity.
  - apply Hdelete.
Defined.

(** ** The phone number, once more *)

Module PhoneFacts.

Lemma filter_isDigit_digits (s : jsstring) :
  Forall (fun c => isDigit c = true) (filter isDigit s).
Proof.
  apply Forall_forall. intros c Hc. apply filter_In in Hc. apply Hc.
Qed.

Lemma filter_isDigit_id (d : jsstring) :
  Forall (fun c => isDigit c = true) d -> filter isDigit d = d.
Proof.
  induction 1 as [|c d Hc _ IH]; [reflexivity|].
  cbn [filter]. now rewrite Hc, IH.
Qed.

(** The function on a plus sign followed by digits. *)
Lemma formatted_plus_digits (d : jsstring) :
  Forall (fun c => isDigit c = true) d ->
  getFormattedMobileForWhatsApp (43%N :: d)
  = if startsWith d (str "91") && (10 <=? length d)%nat
    then 43%N :: d
    else 43%N :: 57%N :: 49%N :: d.
Proof.
  intros Hd. unfold getFormattedMobileForWhatsApp.
  change (filter isDigit (43%N :: d)) with (filter isDigit d).
  rewrite (filter_isDigit_id d Hd). reflexivity.
Qed.

Lemma formatted_cons (c : N) (mobile : jsstring) :
  getFormattedMobileForWhatsApp (c :: mobile)
  = if startsWith (filter isDigit (c :: mobile)) (str "91")
       && (10 <=? length (filter isDigit (c :: mobile)))%nat
    then 43%N :: filter isDigit (c :: mobile)
    else 43%N :: 57%N :: 49%N :: filter isDigit (c :: mobile).
Proof. reflexivity. Qed.

End PhoneFacts.

Import PhoneFacts.

(** X17.  For an input with at least ten digits the normalized number is a
    plus sign followed by digits only, and normalizing it again returns it
    unchanged. *)
Theorem X17_normalized_phone_is_stable (mobile : jsstring) :
  (10 <= length (filter isDigit mobile))%nat ->
  (exists ds,
      getFormattedMobileForWhatsApp mobile = 43%N :: ds
      /\ Forall (fun c => isDigit c = true) ds)
  /\ getFormattedMobileForWhatsApp (getFormattedMobileForWhatsApp mobile)
     = getFormattedMobileForWhatsApp mobile.
Proof.
  intros Hlen.
  destruct mobile as [|c mobile]; [simpl in Hlen; lia|].
  rewrite formatted_cons.
  pose proof (filter_isDigit_digits (c :: mobile)) as Hd.
  remember (filter isDigit (c :: mobile)) as d eqn:Ed. clear Ed c mobile.
  assert (Hleb : (10 <=? length d)%nat = true) by now apply Nat.leb_le.
  rewrite Hleb, andb_true_r.
  destruct (startsWith d (str "91")) eqn:Hs.
  - split.
    + exists d. split; [reflexivity|exact Hd].
    + rewrite (formatted_plus_digits d Hd), Hs, Hleb. reflexivity.
  - assert (Hd' : Forall (fun c => isDigit c = true) (57%N :: 49%N :: d))
      by (repeat constructor; exact Hd).
    split.
    + exists (57%N :: 49%N :: d). split; [reflexivity|exact Hd'].
    + rewrite (formatted_plus_digits _ Hd').
      assert (Hs' : startsWith (57%N :: 49%N :: d) (str "91") = true)
        by (destruct d; reflexivity).
      rewrite Hs'.
      assert (Hleb' : (10 <=? length (57%N :: 49%N :: d))%nat = true)
        by (apply Nat.leb_le; cbn [length]; lia).
      rewrite Hleb'. reflexivity.
Qed.

Lemma X17_witness :
  getFormattedMobileForWhatsApp
    (getFormattedMobileForWhatsApp (str "098765 43210"))
  = getFormattedMobileForWhatsApp (str "098765 43210").
Proof.
  apply (X17_normalized_phone_is_stable (str "098765 43210")).
  vm_compute. lia.
Defined.

Example phone_short_is_not_stable :
  getFormattedMobileForWhatsApp (str "12345") = str "+9112345"
  /\ getFormattedMobileForWhatsApp (str "+9112345") = str "+919112345".
Proof. split; reflexivity. Qed.
